(** * Image pull redirection: api/server/router/image/image_routes.go

    A shallow embedding of the registry resolver [getRegistryUrl], the
    reference rewriter [convertImageTag] and the handler [postImagesCreate],
    followed by the properties of the design document that concern them.

    Go strings are byte sequences: they are [string] here (a list of 8-bit
    [ascii]), and Go's [int] indices are [Z]. *)

From Stdlib Require Import ZArith Ascii String List Bool Lia.
From stdpp Require Import base option strings gmap.

Local Open Scope string_scope.
Local Open Scope Z_scope.

(** ** The calls into Go's [strings] package *)

Module strings.

(** [strings.Count(s, substr)] for a one-byte [substr]: the number of
    bytes of [s] equal to it. *)
Fixpoint Count (s : string) (sep : ascii) : Z :=
  match s with
  | EmptyString => 0
  | String c s' => (if Ascii.eqb c sep then 1 else 0) + Count s' sep
  end.

(** [strings.IndexRune(s, r)] for a rune below [utf8.RuneSelf]: the index
    of the first byte equal to [r], or -1. *)
Fixpoint IndexRune (s : string) (r : ascii) : Z :=
  match s with
  | EmptyString => -1
  | String c s' =>
      if Ascii.eqb c r then 0
      else let i := IndexRune s' r in
           if i <? 0 then -1 else i + 1
  end.

Fixpoint byte_in (c : ascii) (chars : string) : bool :=
  match chars with
  | EmptyString => false
  | String d chars' => Ascii.eqb c d || byte_in c chars'
  end.

(** [strings.ContainsAny(s, chars)] for ASCII [chars]: some byte of [s]
    is one of [chars]. *)
Fixpoint ContainsAny (s chars : string) : bool :=
  match s with
  | EmptyString => false
  | String c s' => byte_in c chars || ContainsAny s' chars
  end.

(** [strings.HasPrefix(s, prefix)]. *)
Definition HasPrefix (s pre : string) : bool := String.prefix pre s.

Fixpoint skip (n : nat) (s : string) : string :=
  match n, s with
  | O, _ => s
  | S n', String _ s' => skip n' s'
  | S _, EmptyString => EmptyString
  end.

Fixpoint keep (n : nat) (s : string) : string :=
  match n, s with
  | S n', String c s' => String c (keep n' s')
  | _, _ => EmptyString
  end.

(** The slice expressions [s[lo:]] and [s[:hi]]. Go panics when the bound
    is outside [0 .. len(s)]; [IndexRune_range] below shows that the
    bounds [convertImageTag] computes are inside. *)
Definition slice_from (s : string) (lo : Z) : string := skip (Z.to_nat lo) s.
Definition slice_to (s : string) (hi : Z) : string := keep (Z.to_nat hi) s.

End strings.

(** ** Package-level variables (image_routes.go, lines 28-36) *)

Definition unixSock : string := "/tmp/server.sock".
Definition defaultRegistryUrl : string := "docker.io".
Definition defaultUserName : string := "library".

(** ** [convertImageTag] (lines 63-87) *)

Definition convertImageTag (domain imageWithoutTag : string) : string :=
  match strings.Count imageWithoutTag "/" with
  | 2 =>
      let i := strings.IndexRune imageWithoutTag "/" in
      domain +:+ "/" +:+ strings.slice_from imageWithoutTag (i + 1)
  | 1 =>
      let i := strings.IndexRune imageWithoutTag "/" in
      if negb (strings.ContainsAny (strings.slice_to imageWithoutTag i) ".:")
         && negb (String.eqb (strings.slice_to imageWithoutTag i) "localhost")
      then domain +:+ "/" +:+ imageWithoutTag
      else domain +:+ "/" +:+ defaultUserName +:+ "/"
                  +:+ strings.slice_from imageWithoutTag (i + 1)
  | 0 => domain +:+ "/" +:+ defaultUserName +:+ "/" +:+ imageWithoutTag
  | _ => ""
  end.

(** "[s] contains the byte [c]", on the bytes of [s]. *)
Definition has_byte (c : ascii) (s : string) : Prop :=
  In c (list_ascii_of_string s).

(** The number of ['/'] separators of a name, counted on its bytes. *)
Definition separators (s : string) : nat :=
  count_occ ascii_dec (list_ascii_of_string s) "/"%char.

(** ** Types declared outside image_routes.go *)

(** [url.Values] and [http.Header] are both [map[string][]string]. *)
Abbreviation Values := (gmap string (list string)).

(** [v.Get(key)]: the first value stored under [key], or the empty string.
    [r.FormValue(key)] reads [r.Form] the same way once the form is parsed,
    and [Header.Get] does too for a key already in canonical form. *)
Definition Values_Get (v : Values) (key : string) : string :=
  match v !! key with
  | Some (x :: _) => x
  | _ => ""
  end.

(** The index expression [v[key]]: nil when the key is absent. *)
Definition Values_index (v : Values) (key : string) : list string :=
  default [] (v !! key).

(** Modelled from the spec: PlatformSpec, the optional
    {os, architecture, variant} tuple ([specs.Platform], declared in the
    image-spec module). *)
Record Platform := { OS : string; Architecture : string; Variant : string }.

(** The request context, of which the handler reads the negotiated API
    version ([httputils.VersionFromContext]). *)
Record Context := { VersionFromContext : string }.

(** The [*http.Request] as the handler reads it. [Form] is what
    [httputils.ParseForm] leaves in [r.Form] when it succeeds. *)
Record Request (ReadCloser : Type) := {
  Form : Values;
  Header : Values;
  Body : ReadCloser
}.
Arguments Form {ReadCloser} _.
Arguments Header {ReadCloser} _.
Arguments Body {ReadCloser} _.

(** The resolver's [*http.Response]. The body is an [io.Reader]: it is
    kept as the segments in which the transport hands it over, and one
    [Read] call takes bytes from the first pending segment only ("Read
    reads up to len(p) bytes ... if some data is available but not len(p)
    bytes, Read conventionally returns what is available instead of
    waiting for more"). *)
Record Response := { StatusCode : Z; RespBody : list string }.

(** The whole content of a body. *)
Definition body_bytes (segments : list string) : string :=
  fold_right String.append "" segments.

(** [resp.Body.Read(buf)] with [len(buf) = n]: the bytes placed in
    [buf[:n']] and the reader afterwards. An exhausted reader yields no
    byte (and [io.EOF], which the caller drops). *)
Definition Body_Read (n : nat) (body : list string) : string * list string :=
  match body with
  | [] => ("", [])
  | seg :: rest =>
      (strings.keep n seg,
       if (String.length seg <=? n)%nat then rest else strings.skip n seg :: rest)
  end.

(** How a call ends: with a value, or in a run-time panic that unwinds the
    handler (the deferred calls still run). *)
Inductive Completion (A : Type) : Type :=
| Returns (a : A)
| Panics.
Arguments Returns {A} a.
Arguments Panics {A}.

(** Everything the file calls but does not define: the HTTP client over
    the unix socket, the helper packages, the response writer and the
    [Backend] interface behind [s.backend]. [Daemon] is the state behind
    the stateful calls (the backend's image store, the resolver process). *)
Class Externals : Type := {
  error : Type;
  Named : Type;
  AuthConfig : Type;
  ReadCloser : Type;
  ImageDeleteResponseItem : Type;
  (** [w] with the [ioutils.WriteFlusher] [output] wrapped around it: both
      names write to the same connection, so one value stands for the two. *)
  ResponseWriter : Type;
  Daemon : Type;

  (** [client.Get(url)] *)
  client_Get : string -> Daemon -> (error + Response) * Daemon;

  httputils_ParseForm : Request ReadCloser -> option error;
  versions_GreaterThanOrEqualTo : string -> string -> bool;
  platforms_Parse : string -> error + Platform;
  system_ValidatePlatform : Platform -> option error;
  (** [&types.AuthConfig{}] *)
  emptyAuthConfig : AuthConfig;
  (** [json.NewDecoder(base64.NewDecoder(base64.URLEncoding, ...)).Decode]
      into an empty [AuthConfig]: the decoded value, or [None] on error. *)
  decodeAuthConfig : string -> option AuthConfig;
  (** [reference.ParseNormalizedNamed]: a possibly nil [Named] and an
      error. *)
  reference_ParseNormalizedNamed : string -> option Named * option error;
  (** [reference.FamiliarString]. Its argument may be the nil interface,
      on which a method call panics: the result says whether the call
      returns. *)
  reference_FamiliarString : option Named -> Completion string;
  streamformatter_FormatError : error -> string;

  (** [w.Header().Set(key, value)] *)
  Header_Set : string -> string -> ResponseWriter -> ResponseWriter;
  output_Write : string -> ResponseWriter -> ResponseWriter;
  output_Flushed : ResponseWriter -> bool;
  output_Close : ResponseWriter -> ResponseWriter;

  backend_PullImage :
    Context -> string -> string -> option Platform -> Values -> AuthConfig ->
    ResponseWriter -> Daemon -> (option error * ResponseWriter) * Daemon;
  backend_TagImage :
    string -> string -> string -> Daemon -> (string * option error) * Daemon;
  backend_ImageDelete :
    string -> bool -> bool -> Daemon ->
    (list ImageDeleteResponseItem * option error) * Daemon;
  backend_ImportImage :
    string -> string -> string -> string -> string -> ReadCloser ->
    ResponseWriter -> list string -> Daemon ->
    (option error * ResponseWriter) * Daemon
}.

(** ** What a run leaves behind: log records and calls *)

Section Events.

Variables (error AuthConfig ReadCloser : Type).

Inductive Level : Type := InfoLevel | ErrorLevel.

(** An argument of a logrus call. *)
Inductive LogArg : Type :=
| LStr (s : string)
| LInt (z : Z)
| LErr (e : error)
| LField (key value : string).

(** What the handler does to the outside, in order: a log record, or a
    call with the arguments it was given. *)
Inductive Event : Type :=
| Logged (level : Level) (format : string) (args : list LogArg)
| Called_Get (url : string)
| Called_PullImage (image tag : string) (platform : option Platform)
    (metaHeaders : Values) (authConfig : AuthConfig)
| Called_TagImage (imageName repository tag : string)
| Called_ImageDelete (imageRef : string) (force prune : bool)
| Called_ImportImage (src repository os tag msg : string)
    (inConfig : ReadCloser) (changes : list string).

(** *** Observations on a trace *)

Definition is_call (e : Event) : bool :=
  match e with
  | Logged _ _ _ => false
  | _ => true
  end.

(** The calls of a trace, log records left out. *)
Definition calls (tr : list Event) : list Event := List.filter is_call tr.

Definition is_delete (e : Event) : bool :=
  match e with
  | Called_ImageDelete _ _ _ => true
  | _ => false
  end.

(** The [ImageDelete] calls of a trace. *)
Definition deletes (tr : list Event) : list Event := List.filter is_delete tr.

End Events.

Arguments LStr {error} s.
Arguments LInt {error} z.
Arguments LErr {error} e.
Arguments LField {error} key value.
Arguments Logged {error AuthConfig ReadCloser} level format args.
Arguments Called_Get {error AuthConfig ReadCloser} url.
Arguments Called_PullImage {error AuthConfig ReadCloser}
  image tag platform metaHeaders authConfig.
Arguments Called_TagImage {error AuthConfig ReadCloser} imageName repository tag.
Arguments Called_ImageDelete {error AuthConfig ReadCloser} imageRef force prune.
Arguments Called_ImportImage {error AuthConfig ReadCloser}
  src repository os tag msg inConfig changes.
Arguments is_call {error AuthConfig ReadCloser} e.
Arguments calls {error AuthConfig ReadCloser} tr.
Arguments is_delete {error AuthConfig ReadCloser} e.
Arguments deletes {error AuthConfig ReadCloser} tr.

(** ** The handler's monad: state passing over the daemon, with a trace *)

(** The events of a run in an environment. *)
Abbreviation Trace := (list (Event error AuthConfig ReadCloser)).

Section Handler.

Context {E : Externals}.


Definition M (A : Type) : Type :=
  Daemon * Trace -> A * (Daemon * Trace).

Definition ret {A} (a : A) : M A := fun st => (a, st).

Definition bind {A B} (c : M A) (k : A -> M B) : M B :=
  fun st => let (a, st') := c st in k a st'.

Definition emit (e : Event error AuthConfig ReadCloser) : M unit :=
  fun '(d, tr) => (tt, (d, (tr ++ [e])%list)).

(** Lifts a stateful call, recording it. *)
Definition call {A} (e : Event error AuthConfig ReadCloser) (f : Daemon -> A * Daemon) : M A :=
  fun '(d, tr) => let (a, d') := f d in (a, (d', (tr ++ [e])%list)).

End Handler.

Notation "x <- c ;; k" := (bind c (fun x => k))
  (at level 100, c at next level, right associativity).
Notation "c ;; k" := (bind c (fun _ => k))
  (at level 100, right associativity).

Section Routes.

Context {E : Externals}.

Definition logrus_Error (e : error) : M unit :=
  emit (Logged ErrorLevel "" [LErr e]).
Definition logrus_Errorf (format : string) (args : list (LogArg error)) : M unit :=
  emit (Logged ErrorLevel format args).
Definition logrus_Info (msg : string) (fields : list (LogArg error)) : M unit :=
  emit (Logged InfoLevel msg fields).
Definition logrus_Infof (format : string) (args : list (LogArg error)) : M unit :=
  emit (Logged InfoLevel format args).

(** *** [getRegistryUrl] (lines 38-61)

    The function has no error result. Closing the body (the deferred
    [resp.Body.Close()]) leaves nothing the caller reads. *)
Definition getRegistryUrl (imageIdWithTags : string) : M string :=
  let url := "http://dockerd" +:+ "/" +:+ imageIdWithTags in
  got <- call (Called_Get url) (client_Get url) ;;
  match got with
  | inl err =>
      logrus_Error err ;;
      ret defaultRegistryUrl
  | inr resp =>
      if StatusCode resp =? 200 then
        let (buf, _) := Body_Read 32 (RespBody resp) in
        ret buf
      else
        logrus_Errorf "Get registry url: status code is %v"
                      [LInt (StatusCode resp)] ;;
        ret defaultRegistryUrl
  end.

(** *** [postImagesCreate] (lines 89-191) *)

(** Lines 112-125: the platform of the request, or the error the handler
    returns at once. *)
Definition requestPlatform (ctx : Context) (r : Request ReadCloser)
  : error + option Platform :=
  let version := VersionFromContext ctx in
  if versions_GreaterThanOrEqualTo version "1.32" then
    let apiPlatform := Values_Get (Form r) "platform" in
    if negb (String.eqb apiPlatform "") then
      match platforms_Parse apiPlatform with
      | inl err => inl err
      | inr sp =>
          match system_ValidatePlatform sp with
          | Some err => inl err
          | None => inr (Some sp)
          end
      end
    else inr None
  else inr None.

(** Lines 128-133: the headers whose name starts with [X-Meta-]. *)
Definition metaHeadersOf (r : Request ReadCloser) : Values :=
  filter (fun kv : string * list string =>
            Is_true (strings.HasPrefix kv.1 "X-Meta-")) (Header r).

(** Lines 135-144: a header that does not decode is no credentials. *)
Definition authConfigOf (r : Request ReadCloser) : AuthConfig :=
  let authEncoded := Values_Get (Header r) "X-Registry-Auth" in
  if negb (String.eqb authEncoded "") then
    match decodeAuthConfig authEncoded with
    | Some a => a
    | None => emptyAuthConfig
    end
  else emptyAuthConfig.

(** Lines 183-190: what becomes of [err] once either branch is done. The
    result is the error the handler returns and the output. *)
Definition surface (err : option error) (output : ResponseWriter)
  : option error * ResponseWriter :=
  match err with
  | Some e =>
      if negb (output_Flushed output) then (Some e, output)
      else (None, output_Write (streamformatter_FormatError e) output)
  | None => (None, output)
  end.

Definition finish (err : option error) (output : ResponseWriter)
  : Completion (option error) * ResponseWriter :=
  let (returned, output) := surface err output in (Returns returned, output).

Definition newline : string := String (ascii_of_nat 10) "".

(** Lines 127-171: the pull branch, up to the shared tail. *)
Definition pullBranch (ctx : Context) (r : Request ReadCloser)
    (image tag : string) (platform : option Platform)
    (output : ResponseWriter)
  : M (Completion (option error) * ResponseWriter) :=
  let metaHeaders := metaHeadersOf r in
  let authConfig := authConfigOf r in
  (* 1. get new registry url; and retag the image *)
  registryUrl <- getRegistryUrl (image +:+ ":" +:+ tag) ;;
  let newImage := convertImageTag registryUrl image in
  (* 2. pull image with the new image and tag *)
  pulled <-
    call (Called_PullImage newImage tag platform metaHeaders authConfig)
         (backend_PullImage ctx newImage tag platform metaHeaders
                            authConfig output) ;;
  let '(err, output) := pulled in
  (* 3. retag the local image to the original image tag *)
  let srcTotalImage := newImage +:+ ":" +:+ tag in
  logrus_Infof "Pull succeeds, begin to retag image %s to %s:%s"
               [LStr srcTotalImage; LStr image; LStr tag] ;;
  tagged <-
    call (Called_TagImage srcTotalImage image tag)
         (backend_TagImage srcTotalImage image tag) ;;
  let '(newRetagReturn, retagError) := tagged in
  logrus_Infof ("The return result of the retag is %s" +:+ newline)
               [LStr newRetagReturn] ;;
  match retagError with
  | Some e => logrus_Error e
  | None => ret tt
  end ;;
  logrus_Info "Retag images succeeds, begin to remove intermediate image." [] ;;
  (* 4. delete the new image tag if there are redundant tags. *)
  let srcTotalImageRef := fst (reference_ParseNormalizedNamed srcTotalImage) in
  match reference_FamiliarString srcTotalImageRef with
  | Panics => ret (Panics, output)
  | Returns familiar =>
      (if negb (String.eqb newRetagReturn familiar) then
         deleted <-
           call (Called_ImageDelete srcTotalImage false true)
                (backend_ImageDelete srcTotalImage false true) ;;
         let removeError := snd deleted in
         match removeError with
         | Some e => logrus_Error e
         | None => ret tt
         end
       else ret tt) ;;
      logrus_Info "All succeed." [] ;;
      ret (finish err output)
  end.

(** Lines 172-182: the import branch, up to the shared tail. *)
Definition importBranch (r : Request ReadCloser)
    (repo tag message : string) (platform : option Platform)
    (output : ResponseWriter)
  : M (Completion (option error) * ResponseWriter) :=
  let src := Values_Get (Form r) "fromSrc" in
  let os := match platform with
            | Some p => OS p
            | None => ""
            end in
  imported <-
    call (Called_ImportImage src repo os tag message (Body r)
                             (Values_index (Form r) "changes"))
         (backend_ImportImage src repo os tag message (Body r) output
                              (Values_index (Form r) "changes")) ;;
  let '(err, output) := imported in
  ret (finish err output).

(** The handler. Its result is how it ends (the returned [error], nil
    being [None], or a panic) and the response writer it leaves. The
    deferred [output.Close()] runs on every exit after line 105, a
    panic included, and not on the return of line 93. *)
Definition postImagesCreate (ctx : Context) (w : ResponseWriter)
    (r : Request ReadCloser)
  : M (Completion (option error) * ResponseWriter) :=
  match httputils_ParseForm r with
  | Some err => ret (Returns (Some err), w)
  | None =>
      let image := Values_Get (Form r) "fromImage" in
      let repo := Values_Get (Form r) "repo" in
      let tag := Values_Get (Form r) "tag" in
      let message := Values_Get (Form r) "message" in
      let output := w in
      logrus_Info "imageRouter: postImageCreate"
                  [LField "image" image; LField "repo" repo; LField "tag" tag] ;;
      let output := Header_Set "Content-Type" "application/json" output in
      match requestPlatform ctx r with
      | inl err => ret (Returns (Some err), output_Close output)
      | inr platform =>
          branch <-
            (if negb (String.eqb image "")
             then pullBranch ctx r image tag platform output
             else importBranch r repo tag message platform output) ;;
          let '(ended, output) := branch in
          ret (ended, output_Close output)
      end
  end.

End Routes.

(** ** Observations on a run, used to state the properties *)

Section Observations.

Context {E : Externals}.

(** The resolver did not answer: the connection failed, or the status
    is not 200. *)
Definition resolver_failed (got : error + Response) : Prop :=
  match got with
  | inl _ => True
  | inr resp => StatusCode resp <> 200
  end.

Definition outcome {A} (ran : A * (Daemon * Trace)) : A := fst ran.
Definition trace {A} (ran : A * (Daemon * Trace)) : Trace :=
  snd (snd ran).

Definition logged_error (e : option error) : Trace :=
  match e with
  | Some e => [Logged ErrorLevel "" [LErr e]]
  | None => []
  end.

End Observations.

(** The values of the pull branch, named as in the source, for a request
    [r] handled from the daemon state [d]. *)
Section PullObservations.

Context {E : Externals}.
Variables (ctx : Context) (w : ResponseWriter) (r : Request ReadCloser).
Variables (platform : option Platform) (d : Daemon).

Definition image_of : string := Values_Get (Form r) "fromImage".
Definition tag_of : string := Values_Get (Form r) "tag".

(** Line 147: the run of the resolver. *)
Definition resolution : string * (Daemon * Trace) :=
  getRegistryUrl (image_of +:+ ":" +:+ tag_of) (d, []).

Definition registryUrl_of : string := outcome resolution.
Definition newImage_of : string := convertImageTag registryUrl_of image_of.
Definition srcTotalImage_of : string := newImage_of +:+ ":" +:+ tag_of.

(** Line 151: the pull, on the writer whose header is set. *)
Definition pull_of : (option error * ResponseWriter) * Daemon :=
  backend_PullImage ctx newImage_of tag_of platform (metaHeadersOf r)
  (authConfigOf r) (Header_Set "Content-Type" "application/json" w)
  (fst (snd resolution)).

Definition pullError_of : option error := fst (fst pull_of).
Definition pullOutput_of : ResponseWriter := snd (fst pull_of).

(** Line 156: the retag. *)
Definition retag_of : (string * option error) * Daemon :=
  backend_TagImage srcTotalImage_of image_of tag_of (snd pull_of).

Definition newRetagReturn_of : string := fst (fst retag_of).
Definition retagError_of : option error := snd (fst retag_of).

(** Lines 164-165: the right-hand side of the comparison. *)
Definition familiar_of : Completion string :=
  reference_FamiliarString
  (fst (reference_ParseNormalizedNamed srcTotalImage_of)).

(** Line 166: the delete, were it called. *)
Definition removeError_of : option error :=
  snd (fst (backend_ImageDelete srcTotalImage_of false true (snd retag_of))).

End PullObservations.


(** The values of the import branch. *)
Section ImportObservations.

Context {E : Externals}.
Variables (w : ResponseWriter) (r : Request ReadCloser).
Variables (platform : option Platform) (d : Daemon).

(** Lines 177-180: the OS of the declared platform, if any. *)
Definition os_of : string :=
  match platform with
  | Some p => OS p
  | None => ""
  end.

(** Line 181: the import, on the writer whose header is set. *)
Definition import_of : (option error * ResponseWriter) * Daemon :=
  backend_ImportImage (Values_Get (Form r) "fromSrc")
  (Values_Get (Form r) "repo") os_of (tag_of r)
  (Values_Get (Form r) "message") (Body r)
  (Header_Set "Content-Type" "application/json" w)
  (Values_index (Form r) "changes") d.

End ImportObservations.

(** ** Environments that differ in one collaborator *)

(** [E] with another backend retag and another backend delete. *)
Definition with_cleanup (E : Externals)
  (tagImage : string -> string -> string -> Daemon ->
              (string * option error) * Daemon)
  (imageDelete : string -> bool -> bool -> Daemon ->
                 (list ImageDeleteResponseItem * option error) * Daemon)
  : Externals :=
  {| error := error;
   Named := Named;
   AuthConfig := AuthConfig;
   ReadCloser := ReadCloser;
   ImageDeleteResponseItem := ImageDeleteResponseItem;
   ResponseWriter := ResponseWriter;
   Daemon := Daemon;
   client_Get := client_Get;
   httputils_ParseForm := httputils_ParseForm;
   versions_GreaterThanOrEqualTo := versions_GreaterThanOrEqualTo;
   platforms_Parse := platforms_Parse;
   system_ValidatePlatform := system_ValidatePlatform;
   emptyAuthConfig := emptyAuthConfig;
   decodeAuthConfig := decodeAuthConfig;
   reference_ParseNormalizedNamed := reference_ParseNormalizedNamed;
   reference_FamiliarString := reference_FamiliarString;
   streamformatter_FormatError := streamformatter_FormatError;
   Header_Set := Header_Set;
   output_Write := output_Write;
   output_Flushed := output_Flushed;
   output_Close := output_Close;
   backend_PullImage := backend_PullImage;
   backend_TagImage := tagImage;
   backend_ImageDelete := imageDelete;
   backend_ImportImage := backend_ImportImage |}.

(** [E] with another [reference.ParseNormalizedNamed]. *)
Definition with_parser (E : Externals)
  (parseNormalizedNamed : string -> option Named * option error)
  : Externals :=
  {| error := error;
   Named := Named;
   AuthConfig := AuthConfig;
   ReadCloser := ReadCloser;
   ImageDeleteResponseItem := ImageDeleteResponseItem;
   ResponseWriter := ResponseWriter;
   Daemon := Daemon;
   client_Get := client_Get;
   httputils_ParseForm := httputils_ParseForm;
   versions_GreaterThanOrEqualTo := versions_GreaterThanOrEqualTo;
   platforms_Parse := platforms_Parse;
   system_ValidatePlatform := system_ValidatePlatform;
   emptyAuthConfig := emptyAuthConfig;
   decodeAuthConfig := decodeAuthConfig;
   reference_ParseNormalizedNamed := parseNormalizedNamed;
   reference_FamiliarString := reference_FamiliarString;
   streamformatter_FormatError := streamformatter_FormatError;
   Header_Set := Header_Set;
   output_Write := output_Write;
   output_Flushed := output_Flushed;
   output_Close := output_Close;
   backend_PullImage := backend_PullImage;
   backend_TagImage := backend_TagImage;
   backend_ImageDelete := backend_ImageDelete;
   backend_ImportImage := backend_ImportImage |}.

(** ** A scripted environment

    One instance of [Externals] on which the handler runs to a value: the
    daemon is a script that fixes the answer of every stateful call. *)

Module Scripted.

(** The response as the client sees it. Every write of a
    [WriteFlusher] is followed by a flush. *)
Record Writer := {
  headers : list (string * string);
  chunks : list string;
  flushed : bool;
  closed : bool
}.

Record Script := {
  resolver : string + Response;
  pull_progress : list string;
  pull_error : option string;
  tag_result : string;
  tag_error : option string;
  delete_error : option string;
  import_progress : list string;
  import_error : option string
}.

Definition fresh : Writer :=
  {| headers := []; chunks := []; flushed := false; closed := false |}.

Definition set_header (k v : string) (w : Writer) : Writer :=
  {| headers := (k, v) :: headers w; chunks := chunks w;
     flushed := flushed w; closed := closed w |}.

Definition write (b : string) (w : Writer) : Writer :=
  if closed w then w
  else {| headers := headers w; chunks := (chunks w ++ [b])%list;
          flushed := true; closed := false |}.

Definition close (w : Writer) : Writer :=
  {| headers := headers w; chunks := chunks w;
     flushed := flushed w; closed := true |}.

Definition write_all (bs : list string) (w : Writer) : Writer :=
  fold_left (fun w b => write b w) bs w.

Fixpoint last_byte (s : string) : option ascii :=
  match s with
  | EmptyString => None
  | String c EmptyString => Some c
  | String _ s' => last_byte s'
  end.

(** A stand-in for [reference.ParseNormalizedNamed] that agrees with it
    on the names used below: a name with an empty repository or an
    empty tag after the colon has no parse, and the [Named] is then
    nil. *)
Definition parse (s : string) : option string * option string :=
  match s, last_byte s with
  | String first _, Some final =>
      if Ascii.eqb first ":" || Ascii.eqb final ":"
      then (None, Some "invalid reference format")
      else (Some s, None)
  | _, _ => (None, Some "invalid reference format")
  end.

Definition strip (pre s : string) : option string :=
  if String.prefix pre s
  then Some (strings.skip (String.length pre) s)
  else None.

(** A stand-in for [reference.FamiliarString]: the default domain and
    namespace are dropped. On the nil interface the library falls
    through its type assertion to [ref.String()], a method call on nil,
    which panics: that is [familiar Panics]. *)
Definition familiar (on_nil : Completion string) (ref : option string)
  : Completion string :=
  match ref with
  | None => on_nil
  | Some s =>
    match strip "docker.io/library/" s with
    | Some short => Returns short
    | None =>
        match strip "docker.io/" s with
        | Some short => Returns short
        | None => Returns s
        end
    end
  end.

Definition externals_with (on_nil : Completion string) : Externals := {|
  error := string;
  Named := string;
  AuthConfig := string;
  ReadCloser := string;
  ImageDeleteResponseItem := string;
  ResponseWriter := Writer;
  Daemon := Script;
  client_Get := fun _ d =>
    (match resolver d with inl e => inl e | inr resp => inr resp end, d);
  httputils_ParseForm := fun r =>
    match Form r !! "%" with
    | Some _ => Some "invalid URL escape"
    | None => None
    end;
  versions_GreaterThanOrEqualTo := fun v other => String.leb other v;
  platforms_Parse := fun s =>
    if String.eqb s "linux" || String.eqb s "windows" || String.eqb s "plan9"
    then inr {| OS := s; Architecture := "amd64"; Variant := "" |}
    else inl "invalid platform";
  system_ValidatePlatform := fun p =>
    if String.eqb (OS p) "plan9" then Some "invalid platform os" else None;
  emptyAuthConfig := "";
  decodeAuthConfig := fun s =>
    if String.prefix "e30" s then Some s else None;
  reference_ParseNormalizedNamed := parse;
  reference_FamiliarString := familiar on_nil;
  streamformatter_FormatError := fun e => "{error:" +:+ e +:+ "}";
  Header_Set := set_header;
  output_Write := write;
  output_Flushed := flushed;
  output_Close := close;
  backend_PullImage := fun _ _ _ _ _ _ w d =>
    ((pull_error d, write_all (pull_progress d) w), d);
  backend_TagImage := fun _ _ _ d => ((tag_result d, tag_error d), d);
  backend_ImageDelete := fun _ _ _ d => (([], delete_error d), d);
  backend_ImportImage := fun _ _ _ _ _ _ w _ d =>
    ((import_error d, write_all (import_progress d) w), d)
  |}.

(** The environment with the library's behaviour on nil. *)
#[export] Instance externals : Externals := externals_with Panics.

Definition request (form header : Values) (body : string) : Request string :=
  {| Form := form; Header := header; Body := body |}.

Definition v140 : Context := {| VersionFromContext := "1.40" |}.

(** The resolver answers 200 with [domain] in one segment. *)
Definition resolves (domain : string) : string + Response :=
  inr {| StatusCode := 200; RespBody := [domain] |}.

(** A daemon on which every call succeeds and nothing is written. *)
Definition quiet (domain retag : string) : Script :=
  {| resolver := resolves domain;
     pull_progress := []; pull_error := None;
     tag_result := retag; tag_error := None;
     delete_error := None;
     import_progress := []; import_error := None |}.

Definition answering (got : string + Response) (d : Script) : Script :=
  {| resolver := got;
     pull_progress := pull_progress d; pull_error := pull_error d;
     tag_result := tag_result d; tag_error := tag_error d;
     delete_error := delete_error d;
     import_progress := import_progress d; import_error := import_error d |}.

Definition pulling (progress : list string) (err : option string)
    (d : Script) : Script :=
  {| resolver := resolver d;
     pull_progress := progress; pull_error := err;
     tag_result := tag_result d; tag_error := tag_error d;
     delete_error := delete_error d;
     import_progress := import_progress d; import_error := import_error d |}.

Definition cleaning (retag remove : option string) (d : Script) : Script :=
  {| resolver := resolver d;
     pull_progress := pull_progress d; pull_error := pull_error d;
     tag_result := tag_result d; tag_error := retag;
     delete_error := remove;
     import_progress := import_progress d; import_error := import_error d |}.

Definition importing (progress : list string) (err : option string)
    (d : Script) : Script :=
  {| resolver := resolver d;
     pull_progress := pull_progress d; pull_error := pull_error d;
     tag_result := tag_result d; tag_error := tag_error d;
     delete_error := delete_error d;
     import_progress := progress; import_error := err |}.

(** [fromImage=nginx&tag=latest] *)
Definition pull_nginx : Request string :=
  request {[ "fromImage" := ["nginx"]; "tag" := ["latest"] ]} ∅ "".

(** [fromImage=nginx], no tag. *)
Definition pull_untagged : Request string :=
  request {[ "fromImage" := ["nginx"] ]} ∅ "".

(** [fromImage=a/b/c/d&tag=latest]: three separators. *)
Definition pull_overslashed : Request string :=
  request {[ "fromImage" := ["a/b/c/d"]; "tag" := ["latest"] ]} ∅ "".

(** An import of a tarball sent in the body. *)
Definition import_tarball : Request string :=
  request {[ "fromSrc" := ["-"]; "repo" := ["myrepo"]; "tag" := ["v1"];
           "message" := ["imported"]; "platform" := ["linux"];
           "changes" := ["CMD sh"; "ENV a=b"] ]}
        ∅ "tarball".

(** The backend on the empty reference: the pull and the retag fail, and
    nothing is written. *)
Definition rejecting : Script :=
  cleaning (Some "No such image: :latest") None
  (pulling [] (Some "invalid reference format") (quiet "docker.io" "")).

(** A pull that fails after progress was streamed. *)
Definition interrupted : Script :=
  pulling ["{status:Pulling}"] (Some "unexpected EOF")
  (quiet "myreg.io" "nginx:latest").

(** Runs the handler on a fresh writer from an empty trace. *)
Definition run (d : Script) (r : Request string) :=
  postImagesCreate v140 fresh r (d, []).

End Scripted.

(** ** The other routes of image_routes.go *)

(** [missingImageError] (lines 278-284): an empty struct whose message is
    fixed; [InvalidParameter] only marks it for the error-to-status
    mapping. *)
Inductive missingImageError : Type := MissingImageError.

Definition missingImageError_Error (_ : missingImageError) : string :=
  "image name cannot be blank".

(** The route variables, a [map[string]string]: [vars[key]] is the empty
    string for a missing key. *)
Definition vars_index (vars : gmap string string) (key : string) : string :=
  default "" (vars !! key).

(** What the other routes call and the file does not define. *)
Class RouteExternals (E : Externals) : Type := {
  (** [filters.Args] *)
  Args : Type;
  ImageInspect : Type;
  ImageSummary : Type;
  HistoryResponseItem : Type;
  SearchResults : Type;
  SearchResult : Type;
  PruneReport : Type;

  (** A [missingImageError] as an [error] value. *)
  error_of_missingImage : missingImageError -> error;
  strings_TrimSpace : string -> string;
  strconv_Atoi : string -> error + Z;
  httputils_BoolValue : Request ReadCloser -> string -> bool;
  httputils_BoolValueOrDefault : Request ReadCloser -> string -> bool -> bool;
  versions_LessThan : string -> string -> bool;
  filters_FromJSON : string -> error + Args;
  (** [args.Add(key, value)], which updates [args] in place. *)
  filters_Add : string -> string -> Args -> Args;
  registry_DefaultSearchLimit : Z;
  errdefs_InvalidParameter : error -> error;
  errors_Wrap : error -> string -> error;
  (** [json.NewDecoder(r.Body).Decode(authConfig)] *)
  decodeAuthConfigBody : ReadCloser -> error + AuthConfig;
  (** [Decode(&config)] on a nil [*types.AuthConfig]: on success the
      pointer it leaves, which JSON [null] leaves nil; [None] on error. *)
  decodeAuthConfigPointer : string -> option (option AuthConfig);
  (** The field [query.Results]. *)
  query_Results : SearchResults -> list SearchResult;

  (** [w.WriteHeader(code)] *)
  w_WriteHeader : Z -> ResponseWriter -> ResponseWriter;
  httputils_WriteJSON :
    forall A : Type, Z -> A -> ResponseWriter -> option error * ResponseWriter;

  backend_PushImage :
    Context -> string -> string -> Values -> AuthConfig -> ResponseWriter ->
    Daemon -> (option error * ResponseWriter) * Daemon;
  backend_ExportImage :
    list string -> ResponseWriter -> Daemon ->
    (option error * ResponseWriter) * Daemon;
  backend_LoadImage :
    ReadCloser -> ResponseWriter -> bool -> Daemon ->
    (option error * ResponseWriter) * Daemon;
  backend_LookupImage : string -> Daemon -> (error + ImageInspect) * Daemon;
  backend_Images :
    Args -> bool -> bool -> Daemon -> (error + list ImageSummary) * Daemon;
  backend_ImageHistory :
    string -> Daemon -> (error + list HistoryResponseItem) * Daemon;
  backend_SearchRegistryForImages :
    Context -> string -> string -> Z -> option AuthConfig -> Values ->
    Daemon -> (error + SearchResults) * Daemon;
  backend_ImagesPrune :
    Context -> Args -> Daemon -> (error + PruneReport) * Daemon
}.
Arguments httputils_WriteJSON {E _} {A} _ _ _.

Section RouteEvents.

Variables (AuthConfig ReadCloser Args : Type).

(** What a route does to the outside: a log record with its fields, or a
    backend call with the arguments it was given. *)
Inductive RouteEvent : Type :=
| Route_Logged (msg : string) (fields : list (string * (string + bool)))
| Route_PushImage (image tag : string) (metaHeaders : Values)
    (authConfig : AuthConfig)
| Route_ExportImage (names : list string)
| Route_LoadImage (inTar : ReadCloser) (quiet : bool)
| Route_ImageDelete (imageRef : string) (force prune : bool)
| Route_LookupImage (name : string)
| Route_Images (imageFilters : Args) (all withExtraAttrs : bool)
| Route_ImageHistory (name : string)
| Route_TagImage (imageName repository tag : string)
| Route_Search (filtersArgs term : string) (limit : Z)
    (authConfig : option AuthConfig) (headers : Values)
| Route_ImagesPrune (pruneFilters : Args).

Definition is_backend_call (e : RouteEvent) : bool :=
  match e with
  | Route_Logged _ _ => false
  | _ => true
  end.

(** The backend calls of a route's trace. *)
Definition backend_calls (tr : list RouteEvent) : list RouteEvent :=
  List.filter is_backend_call tr.

End RouteEvents.

Arguments Route_Logged {AuthConfig ReadCloser Args} msg fields.
Arguments Route_PushImage {AuthConfig ReadCloser Args}
  image tag metaHeaders authConfig.
Arguments Route_ExportImage {AuthConfig ReadCloser Args} names.
Arguments Route_LoadImage {AuthConfig ReadCloser Args} inTar quiet.
Arguments Route_ImageDelete {AuthConfig ReadCloser Args} imageRef force prune.
Arguments Route_LookupImage {AuthConfig ReadCloser Args} name.
Arguments Route_Images {AuthConfig ReadCloser Args}
  imageFilters all withExtraAttrs.
Arguments Route_ImageHistory {AuthConfig ReadCloser Args} name.
Arguments Route_TagImage {AuthConfig ReadCloser Args} imageName repository tag.
Arguments Route_Search {AuthConfig ReadCloser Args}
  filtersArgs term limit authConfig headers.
Arguments Route_ImagesPrune {AuthConfig ReadCloser Args} pruneFilters.
Arguments is_backend_call {AuthConfig ReadCloser Args} e.
Arguments backend_calls {AuthConfig ReadCloser Args} tr.

(** The events of a route in an environment. *)
Abbreviation RouteTrace := (list (RouteEvent AuthConfig ReadCloser Args)).

Section RouteMonad.

Context {E : Externals} {P : RouteExternals E}.

(** State passing over the daemon, with the trace of the route. *)
Definition R (A : Type) : Type :=
  Daemon * RouteTrace -> A * (Daemon * RouteTrace).

Definition route_ret {A} (a : A) : R A := fun st => (a, st).

Definition route_bind {A B} (c : R A) (k : A -> R B) : R B :=
  fun st => let (a, st') := c st in k a st'.

Definition route_log (msg : string) (fields : list (string * (string + bool)))
  : R unit :=
  fun '(d, tr) => (tt, (d, (tr ++ [Route_Logged msg fields])%list)).

Definition route_call {A} (e : RouteEvent AuthConfig ReadCloser Args)
    (f : Daemon -> A * Daemon) : R A :=
  fun '(d, tr) => let (a, d') := f d in (a, (d', (tr ++ [e])%list)).

End RouteMonad.

Notation "x <~ c ;; k" := (route_bind c (fun x => k))
  (at level 100, c at next level, right associativity).

Section OtherRoutes.

Context {E : Externals} {P : RouteExternals E}.

(** A route ends with the error it returns (nil is [None]) and the
    response writer it leaves. *)
Definition Ended : Type := option error * ResponseWriter.

(** *** [postImagesPush] (lines 193-235) *)
Definition postImagesPush (ctx : Context) (w : ResponseWriter)
    (r : Request ReadCloser) (vars : gmap string string) : R Ended :=
  let metaHeaders := metaHeadersOf r in
  match httputils_ParseForm r with
  | Some err => route_ret (Some err, w)
  | None =>
      let authEncoded := Values_Get (Header r) "X-Registry-Auth" in
      let decoded : error + AuthConfig :=
        if negb (String.eqb authEncoded "") then
          (* the new format is to handle the authConfig as a header *)
          match decodeAuthConfig authEncoded with
          | Some a => inr a
          | None => inr emptyAuthConfig
          end
        else
          (* the old format is supported for compatibility *)
          match decodeAuthConfigBody (Body r) with
          | inl err =>
              inl (errors_Wrap (errdefs_InvalidParameter err)
                     "Bad parameters and missing X-Registry-Auth")
          | inr a => inr a
          end in
      match decoded with
      | inl err => route_ret (Some err, w)
      | inr authConfig =>
          let image := vars_index vars "name" in
          let tag := Values_Get (Form r) "tag" in
          let output := w in
          let output := Header_Set "Content-Type" "application/json" output in
          pushed <~ route_call (Route_PushImage image tag metaHeaders authConfig)
                      (backend_PushImage ctx image tag metaHeaders authConfig
                                         output) ;;
          let '(err, output) := pushed in
          let (returned, output) := surface err output in
          route_ret (returned, output_Close output)
      end
  end.

(** *** [getImagesGet] (lines 237-260) *)
Definition getImagesGet (w : ResponseWriter) (r : Request ReadCloser)
    (vars : gmap string string) : R Ended :=
  match httputils_ParseForm r with
  | Some err => route_ret (Some err, w)
  | None =>
      let output := Header_Set "Content-Type" "application/x-tar" w in
      let names :=
        match vars !! "name" with
        | Some name => [name]
        | None => Values_index (Form r) "names"
        end in
      exported <~ route_call (Route_ExportImage names)
                    (backend_ExportImage names output) ;;
      let '(err, output) := exported in
      let (returned, output) := surface err output in
      route_ret (returned, output_Close output)
  end.

(** *** [postImagesLoad] (lines 262-276) *)
Definition postImagesLoad (w : ResponseWriter) (r : Request ReadCloser)
    : R Ended :=
  match httputils_ParseForm r with
  | Some err => route_ret (Some err, w)
  | None =>
      let quiet := httputils_BoolValueOrDefault r "quiet" true in
      let output := Header_Set "Content-Type" "application/json" w in
      loaded <~ route_call (Route_LoadImage (Body r) quiet)
                  (backend_LoadImage (Body r) output quiet) ;;
      let '(err, output) := loaded in
      let output :=
        match err with
        | Some e => output_Write (streamformatter_FormatError e) output
        | None => output
        end in
      route_ret (None, output_Close output)
  end.

(** *** [deleteImages] (lines 286-309) *)
Definition deleteImages (w : ResponseWriter) (r : Request ReadCloser)
    (vars : gmap string string) : R Ended :=
  match httputils_ParseForm r with
  | Some err => route_ret (Some err, w)
  | None =>
      let name := vars_index vars "name" in
      if String.eqb (strings_TrimSpace name) "" then
        route_ret (Some (error_of_missingImage MissingImageError), w)
      else
        let force := httputils_BoolValue r "force" in
        let prune := negb (httputils_BoolValue r "noprune") in
        _ <~ route_log "imageRouter: deleteImages"
               [("name", inl name); ("force", inr force); ("prune", inr prune)] ;;
        deleted <~ route_call (Route_ImageDelete name force prune)
                     (backend_ImageDelete name force prune) ;;
        match deleted with
        | (_, Some err) => route_ret (Some err, w)
        | (list, None) => route_ret (httputils_WriteJSON 200 list w)
        end
  end.

(** *** [getImagesByName] (lines 311-318) *)
Definition getImagesByName (w : ResponseWriter) (vars : gmap string string)
    : R Ended :=
  found <~ route_call (Route_LookupImage (vars_index vars "name"))
             (backend_LookupImage (vars_index vars "name")) ;;
  match found with
  | inl err => route_ret (Some err, w)
  | inr imageInspect => route_ret (httputils_WriteJSON 200 imageInspect w)
  end.

(** *** [getImagesJSON] (lines 320-344) *)
Definition getImagesJSON (ctx : Context) (w : ResponseWriter)
    (r : Request ReadCloser) : R Ended :=
  match httputils_ParseForm r with
  | Some err => route_ret (Some err, w)
  | None =>
      match filters_FromJSON (Values_Get (Form r) "filters") with
      | inl err => route_ret (Some err, w)
      | inr imageFilters =>
          let version := VersionFromContext ctx in
          let imageFilters :=
            if versions_LessThan version "1.41" then
              let filterParam := Values_Get (Form r) "filter" in
              if negb (String.eqb filterParam "")
              then filters_Add "reference" filterParam imageFilters
              else imageFilters
            else imageFilters in
          listed <~ route_call
                      (Route_Images imageFilters (httputils_BoolValue r "all")
                                    false)
                      (backend_Images imageFilters (httputils_BoolValue r "all")
                                      false) ;;
          match listed with
          | inl err => route_ret (Some err, w)
          | inr images => route_ret (httputils_WriteJSON 200 images w)
          end
      end
  end.

(** *** [getImagesHistory] (lines 346-354) *)
Definition getImagesHistory (w : ResponseWriter) (vars : gmap string string)
    : R Ended :=
  let name := vars_index vars "name" in
  found <~ route_call (Route_ImageHistory name) (backend_ImageHistory name) ;;
  match found with
  | inl err => route_ret (Some err, w)
  | inr history => route_ret (httputils_WriteJSON 200 history w)
  end.

(** *** [postImagesTag] (lines 356-369) *)
Definition postImagesTag (w : ResponseWriter) (r : Request ReadCloser)
    (vars : gmap string string) : R Ended :=
  match httputils_ParseForm r with
  | Some err => route_ret (Some err, w)
  | None =>
      _ <~ route_log "imageRouter: postImagesTag"
             [("imageName", inl (vars_index vars "name"));
              ("repo", inl (Values_Get (Form r) "repo"));
              ("tag", inl (Values_Get (Form r) "tag"))] ;;
      tagged <~ route_call
                  (Route_TagImage (vars_index vars "name")
                     (Values_Get (Form r) "repo") (Values_Get (Form r) "tag"))
                  (backend_TagImage (vars_index vars "name")
                     (Values_Get (Form r) "repo") (Values_Get (Form r) "tag")) ;;
      match snd tagged with
      | Some err => route_ret (Some err, w)
      | None => route_ret (None, w_WriteHeader 201 w)
      end
  end.

(** Lines 375-388 of [getImagesSearch]: the credentials. Without the
    header the pointer stays nil. *)
Definition searchConfigOf (r : Request ReadCloser) : option AuthConfig :=
  let authEncoded := Values_Get (Header r) "X-Registry-Auth" in
  if negb (String.eqb authEncoded "") then
    match decodeAuthConfigPointer authEncoded with
    | Some config => config
    | None => Some emptyAuthConfig
    end
  else None.

(** Lines 394-401 of [getImagesSearch]: the limit, or the error of
    [strconv.Atoi]. *)
Definition searchLimitOf (r : Request ReadCloser) : error + Z :=
  if negb (String.eqb (Values_Get (Form r) "limit") "") then
    match strconv_Atoi (Values_Get (Form r) "limit") with
    | inl err => inl err
    | inr limitValue => inr limitValue
    end
  else inr registry_DefaultSearchLimit.

(** *** [getImagesSearch] (lines 371-407) *)
Definition getImagesSearch (ctx : Context) (w : ResponseWriter)
    (r : Request ReadCloser) : R Ended :=
  match httputils_ParseForm r with
  | Some err => route_ret (Some err, w)
  | None =>
      let config := searchConfigOf r in
      let headers := metaHeadersOf r in
      match searchLimitOf r with
      | inl err => route_ret (Some err, w)
      | inr limit =>
          query <~ route_call
                     (Route_Search (Values_Get (Form r) "filters")
                        (Values_Get (Form r) "term") limit config headers)
                     (backend_SearchRegistryForImages ctx
                        (Values_Get (Form r) "filters")
                        (Values_Get (Form r) "term") limit config headers) ;;
          match query with
          | inl err => route_ret (Some err, w)
          | inr found =>
              route_ret (httputils_WriteJSON 200 (query_Results found) w)
          end
      end
  end.

(** *** [postImagesPrune] (lines 409-424) *)
Definition postImagesPrune (ctx : Context) (w : ResponseWriter)
    (r : Request ReadCloser) : R Ended :=
  match httputils_ParseForm r with
  | Some err => route_ret (Some err, w)
  | None =>
      match filters_FromJSON (Values_Get (Form r) "filters") with
      | inl err => route_ret (Some err, w)
      | inr pruneFilters =>
          pruned <~ route_call (Route_ImagesPrune pruneFilters)
                      (backend_ImagesPrune ctx pruneFilters) ;;
          match pruned with
          | inl err => route_ret (Some err, w)
          | inr pruneReport =>
              route_ret (httputils_WriteJSON 200 pruneReport w)
          end
      end
  end.

End OtherRoutes.

(** ** The scripted environment, for the other routes *)

Module ScriptedRoutes.

Import Scripted.

Definition is_space (c : ascii) : bool :=
  (nat_of_ascii c =? 32)%nat
  || ((9 <=? nat_of_ascii c)%nat && (nat_of_ascii c <=? 13)%nat).

Fixpoint trim_left (s : string) : string :=
  match s with
  | String c s' => if is_space c then trim_left s' else s
  | EmptyString => EmptyString
  end.

Fixpoint trim_right (s : string) : string :=
  match s with
  | String c s' =>
      match trim_right s' with
      | EmptyString => if is_space c then EmptyString else String c EmptyString
      | kept => String c kept
      end
  | EmptyString => EmptyString
  end.

(** [strings.TrimSpace] on ASCII names. *)
Definition trim (s : string) : string := trim_right (trim_left s).

Fixpoint digits (acc : Z) (s : string) : option Z :=
  match s with
  | EmptyString => Some acc
  | String c s' =>
      let n := nat_of_ascii c in
      if (48 <=? n)%nat && (n <=? 57)%nat
      then digits (10 * acc + Z.of_nat (n - 48)) s'
      else None
  end.

(** [strconv.Atoi] on unsigned decimal numerals. *)
Definition atoi (s : string) : string + Z :=
  match s with
  | EmptyString => inl "invalid syntax"
  | _ => match digits 0 s with
         | Some n => inr n
         | None => inl "invalid syntax"
         end
  end.

(** [httputils.BoolValue] on lower-case, untrimmed values. *)
Definition bool_value (r : Request string) (k : string) : bool :=
  let v := Values_Get (Form r) k in
  negb (String.eqb v "" || String.eqb v "0" || String.eqb v "no"
        || String.eqb v "false" || String.eqb v "none").

Definition status (code : Z) (w : Writer) : Writer :=
  set_header ":status" (if code =? 201 then "201" else "200") w.

#[export] Instance routes : RouteExternals externals := {|
  Args := list (string * string);
  ImageInspect := string;
  ImageSummary := string;
  HistoryResponseItem := string;
  SearchResults := list string;
  SearchResult := string;
  PruneReport := string;
  error_of_missingImage := missingImageError_Error;
  strings_TrimSpace := trim;
  strconv_Atoi := atoi;
  httputils_BoolValue := bool_value;
  httputils_BoolValueOrDefault := fun r k dflt =>
    match Form r !! k with
    | Some _ => bool_value r k
    | None => dflt
    end;
  versions_LessThan := fun v other => negb (String.leb other v);
  filters_FromJSON := fun s =>
    if String.eqb s "" then inr []
    else if String.prefix "{" s then inr [("json", s)]
    else inl "invalid filter";
  filters_Add := fun k v args => (args ++ [(k, v)])%list;
  registry_DefaultSearchLimit := 25;
  errdefs_InvalidParameter := fun e => e;
  errors_Wrap := fun e msg => msg +:+ ": " +:+ e;
  decodeAuthConfigBody := fun body =>
    if String.prefix "{" body then inr body else inl "EOF";
  decodeAuthConfigPointer := fun s =>
    if String.prefix "e30" s then Some (Some s)
    else if String.eqb s "bnVsbA" then Some None
    else None;
  query_Results := fun found => found;
  w_WriteHeader := status;
  httputils_WriteJSON := fun _ code _ w => (None, write "<json>" (status code w));
  backend_PushImage := fun _ _ _ _ _ w d =>
    ((pull_error d, write_all (pull_progress d) w), d);
  backend_ExportImage := fun _ w d =>
    ((import_error d, write_all (import_progress d) w), d);
  backend_LoadImage := fun _ w _ d =>
    ((import_error d, write_all (import_progress d) w), d);
  backend_LookupImage := fun name d =>
    (if String.eqb name "" then inl "No such image: " else inr name, d);
  backend_Images := fun _ _ _ d => (inr ["nginx:latest"], d);
  backend_ImageHistory := fun name d =>
    (if String.eqb name "" then inl "No such image: " else inr [name], d);
  backend_SearchRegistryForImages := fun _ _ term _ _ _ d =>
    (if String.eqb term "" then inl "empty term" else inr [term], d);
  backend_ImagesPrune := fun _ _ d => (inr "0B reclaimed", d)
|}.

(** A push of [nginx:latest] without credentials anywhere. *)
Definition push_anonymous : Request string :=
  request {[ "tag" := ["latest"] ]} {[ "Accept" := ["*/*"] ]} "".

(** A push with an undecodable credentials header and a metadata header. *)
Definition push_with_header : Request string :=
  request {[ "tag" := ["latest"] ]}
          {[ "X-Registry-Auth" := ["garbage"]; "X-Meta-Team" := ["infra"];
             "Accept" := ["*/*"] ]} "".

Definition named (name : string) : gmap string string := {[ "name" := name ]}.

(** A load that fails before writing anything. *)
Definition broken_tarball : Script :=
  importing [] (Some "unexpected EOF") (quiet "" "").

Definition plain : Request string := request ∅ ∅ "".

Definition delete_keeping_parents : Request string :=
  request {[ "noprune" := ["1"] ]} ∅ "".

Definition search_limit (limit : string) : Request string :=
  request {[ "term" := ["nginx"]; "limit" := [limit] ]} ∅ "".




(** A form that does not parse. *)
Definition malformed : Request string :=
  request {[ "%" := ["zz"]; "fromImage" := ["nginx"] ]} ∅ "".

(** [fromImage=nginx&tag=latest&platform=...] *)
Definition pull_on (platform : string) : Request string :=
  request {[ "fromImage" := ["nginx"]; "tag" := ["latest"];
             "platform" := [platform] ]} ∅ "".

End ScriptedRoutes.

(** * Properties *)

(** ** The rewriter on concrete names (design document, section 8) *)

Example convert_bare : convertImageTag "r" "nginx" = "r/library/nginx".
Proof. reflexivity. Qed.
Example convert_user : convertImageTag "r" "myuser/nginx" = "r/myuser/nginx".
Proof. reflexivity. Qed.
Example convert_localhost : convertImageTag "r" "localhost/nginx" = "r/library/nginx".
Proof. reflexivity. Qed.
Example convert_host : convertImageTag "r" "registry.example.com/nginx" = "r/library/nginx".
Proof. reflexivity. Qed.
Example convert_port : convertImageTag "r" "reg:5000/nginx" = "r/library/nginx".
Proof. reflexivity. Qed.
Example convert_full : convertImageTag "r" "oldreg.io/myuser/nginx" = "r/myuser/nginx".
Proof. reflexivity. Qed.
Example convert_four : convertImageTag "r" "a/b/c/d" = "".
Proof. reflexivity. Qed.

(** ** Facts about the string operations *)

Section StringFacts.

Variable sep : ascii.

Lemma Count_nonneg (s : string) : 0 <= strings.Count s sep.
Proof. induction s as [|c s IH]; simpl; [lia|]. destruct (Ascii.eqb c sep); lia. Qed.

Lemma Count_app (s t : string) :
  strings.Count (s +:+ t) sep = strings.Count s sep + strings.Count t sep.
Proof. induction s as [|c s IH]; simpl; [reflexivity|]. rewrite IH. lia. Qed.

Lemma Count_count_occ (s : string) :
  strings.Count s sep = Z.of_nat (count_occ ascii_dec (list_ascii_of_string s) sep).
Proof.
  induction s as [|c s IH]; simpl; [reflexivity|].
  rewrite IH. destruct (Ascii.eqb_spec c sep) as [->|Hne].
  - destruct (ascii_dec sep sep); [lia|congruence].
  - destruct (ascii_dec c sep); [congruence|lia].
Qed.

Lemma Count_absent (s : string) : ~ has_byte sep s -> strings.Count s sep = 0.
Proof.
  unfold has_byte. intros H. rewrite Count_count_occ.
  apply (count_occ_not_In ascii_dec) in H. rewrite H. reflexivity.
Qed.

Lemma IndexRune_first (s t : string) :
  ~ has_byte sep s ->
  strings.IndexRune (s +:+ String sep t) sep = Z.of_nat (String.length s).
Proof.
  unfold has_byte. induction s as [|c s IH]; simpl; intros H.
  - rewrite Ascii.eqb_refl. reflexivity.
  - destruct (Ascii.eqb_spec c sep) as [->|Hne]; [exfalso; auto|].
    rewrite IH by auto.
    destruct (Z.ltb_spec (Z.of_nat (String.length s)) 0); lia.
Qed.

(** The slices of [convertImageTag] are in range: where the count is
    positive the index is one of the string's. *)
Lemma IndexRune_range (s : string) :
  0 < strings.Count s sep ->
  0 <= strings.IndexRune s sep < Z.of_nat (String.length s).
Proof.
  induction s as [|c s IH]; simpl; [lia|].
  destruct (Ascii.eqb c sep); [lia|]. intros H.
  specialize (IH ltac:(lia)).
  destruct (Z.ltb_spec (strings.IndexRune s sep) 0); lia.
Qed.

End StringFacts.

Lemma append_cons (a : ascii) (s t : string) :
  String a s +:+ t = String a (s +:+ t).
Proof. reflexivity. Qed.

Lemma append_empty (t : string) : "" +:+ t = t.
Proof. reflexivity. Qed.

Lemma length_app (s t : string) :
  String.length (s +:+ t) = (String.length s + String.length t)%nat.
Proof.
  induction s as [|c s IH]; [reflexivity|].
  rewrite append_cons. simpl. rewrite IH. reflexivity.
Qed.

Lemma keep_app (s t : string) : strings.keep (String.length s) (s +:+ t) = s.
Proof.
  induction s as [|c s IH].
  - rewrite append_empty. destruct t; reflexivity.
  - rewrite append_cons. simpl. rewrite IH. reflexivity.
Qed.

Lemma skip_app (s t : string) : strings.skip (String.length s) (s +:+ t) = t.
Proof.
  induction s as [|c s IH]; [reflexivity|].
  rewrite append_cons. simpl. exact IH.
Qed.

Lemma length_keep (n : nat) (s : string) :
  (String.length (strings.keep n s) <= n)%nat.
Proof.
  revert n. induction s as [|c s IH]; intros [|n]; simpl; try lia.
  specialize (IH n). lia.
Qed.

Lemma keep_skip (n : nat) (s : string) :
  strings.keep n s +:+ strings.skip n s = s.
Proof.
  revert n. induction s as [|c s IH]; intros [|n]; try reflexivity.
  simpl. rewrite append_cons, IH. reflexivity.
Qed.

Lemma keep_all (n : nat) (s : string) :
  (String.length s <= n)%nat -> strings.keep n s = s.
Proof.
  revert n. induction s as [|c s IH]; intros [|n]; simpl; try reflexivity; try lia.
  intros H. rewrite IH by lia. reflexivity.
Qed.

Lemma keep_substring (n : nat) (s : string) :
  strings.keep n s = String.substring 0 n s.
Proof.
  revert n. induction s as [|c s IH]; intros [|n]; try reflexivity.
  simpl. rewrite IH. reflexivity.
Qed.

Lemma slice_to_first (s t : string) (n : Z) :
  n = Z.of_nat (String.length s) -> strings.slice_to (s +:+ t) n = s.
Proof. intros ->. unfold strings.slice_to. rewrite Nat2Z.id. apply keep_app. Qed.

Lemma app_byte_assoc (s t : string) (c : ascii) :
  (s +:+ String c "") +:+ t = s +:+ String c t.
Proof.
  induction s as [|a s IH]; [reflexivity|].
  rewrite !append_cons, IH. reflexivity.
Qed.

Lemma slice_from_rest (s t : string) (c : ascii) (n : Z) :
  n = Z.of_nat (String.length s) ->
  strings.slice_from (s +:+ String c t) (n + 1) = t.
Proof.
  intros ->. unfold strings.slice_from.
  rewrite <- app_byte_assoc.
  replace (Z.to_nat (Z.of_nat (String.length s) + 1))
    with (String.length (s +:+ String c "")).
  - apply skip_app.
  - rewrite length_app. simpl. lia.
Qed.

Lemma ContainsAny_dot_colon (s : string) :
  strings.ContainsAny s ".:" = true <-> has_byte "." s \/ has_byte ":" s.
Proof.
  unfold has_byte. induction s as [|c s IH]; simpl.
  - split; [discriminate|tauto].
  - rewrite orb_true_iff, IH, !orb_true_iff.
    destruct (Ascii.eqb_spec c "."), (Ascii.eqb_spec c ":"); subst;
      split; intros; try tauto; intuition (try discriminate; try congruence).
Qed.

(** ** The reference rewriter *)

Lemma Count_one_separator (a b : string) :
  ~ has_byte "/" a -> ~ has_byte "/" b ->
  strings.Count (a +:+ "/" +:+ b) "/" = 1.
Proof.
  intros Ha Hb. rewrite Count_app. change ("/" +:+ b) with (String "/" b).
  simpl. rewrite (Count_absent _ a Ha), (Count_absent _ b Hb). reflexivity.
Qed.

Lemma Count_two_separators (a b c : string) :
  ~ has_byte "/" a -> ~ has_byte "/" b -> ~ has_byte "/" c ->
  strings.Count (a +:+ "/" +:+ b +:+ "/" +:+ c) "/" = 2.
Proof.
  intros Ha Hb Hc. rewrite Count_app. change ("/" +:+ b +:+ "/" +:+ c)
    with (String "/" (b +:+ "/" +:+ c)).
  simpl. rewrite (Count_absent _ a Ha), (Count_one_separator b c Hb Hc).
  reflexivity.
Qed.

(** C1. For every domain [d] and names [a], [b], [c] without a ['/']:
    the bare name [a] becomes [d/library/a]; the name [a/b] becomes
    [d/a/b] when [a] has no ['.'], no [':'] and is not [localhost], and
    [d/library/b] otherwise; the name [a/b/c] becomes [d/b/c]. *)
Theorem convertImageTag_case_table (d a b c : string) :
  ~ has_byte "/" a -> ~ has_byte "/" b -> ~ has_byte "/" c ->
  convertImageTag d a = d +:+ "/library/" +:+ a
  /\ (~ has_byte "." a -> ~ has_byte ":" a -> a <> "localhost" ->
      convertImageTag d (a +:+ "/" +:+ b) = d +:+ "/" +:+ a +:+ "/" +:+ b)
  /\ (has_byte "." a \/ has_byte ":" a \/ a = "localhost" ->
      convertImageTag d (a +:+ "/" +:+ b) = d +:+ "/library/" +:+ b)
  /\ convertImageTag d (a +:+ "/" +:+ b +:+ "/" +:+ c)
     = d +:+ "/" +:+ b +:+ "/" +:+ c.
Proof.
  intros Ha Hb Hc.
  assert (Hi : forall t, strings.IndexRune (a +:+ "/" +:+ t) "/"
                         = Z.of_nat (String.length a))
    by (intros t; apply (IndexRune_first _ a t Ha)).
  assert (Hone : forall t, strings.slice_to (a +:+ "/" +:+ t)
                             (strings.IndexRune (a +:+ "/" +:+ t) "/") = a)
    by (intros t; apply slice_to_first, Hi).
  assert (Hrest : forall t, strings.slice_from (a +:+ "/" +:+ t)
                              (strings.IndexRune (a +:+ "/" +:+ t) "/" + 1) = t)
    by (intros t; apply (slice_from_rest a t "/"), Hi).
  repeat split.
  - unfold convertImageTag. rewrite (Count_absent _ a Ha). reflexivity.
  - intros Hdot Hcolon Hlocal. unfold convertImageTag.
    rewrite (Count_one_separator a b Ha Hb), Hone.
    destruct (strings.ContainsAny a ".:") eqn:Hany.
    + apply ContainsAny_dot_colon in Hany. tauto.
    + destruct (String.eqb_spec a "localhost"); [contradiction|reflexivity].
  - intros Hdomain. unfold convertImageTag.
    rewrite (Count_one_separator a b Ha Hb), Hone, Hrest.
    destruct (strings.ContainsAny a ".:") eqn:Hany; [reflexivity|].
    destruct (String.eqb_spec a "localhost"); [reflexivity|].
    exfalso. destruct Hdomain as [H|[H|H]]; [| |contradiction];
      assert (strings.ContainsAny a ".:" = true)
        by (apply ContainsAny_dot_colon; tauto); congruence.
  - unfold convertImageTag.
    rewrite (Count_two_separators a b c Ha Hb Hc), Hrest. reflexivity.
Qed.

Lemma no_slash (s : string) :
  count_occ ascii_dec (list_ascii_of_string s) "/"%char = O -> ~ has_byte "/" s.
Proof. unfold has_byte. intros H. apply (count_occ_not_In ascii_dec). exact H. Qed.

Lemma convertImageTag_case_table_witness :
  convertImageTag "r" "oldreg.io" = "r/library/oldreg.io"
  /\ (~ has_byte "." "oldreg.io" -> ~ has_byte ":" "oldreg.io" ->
      "oldreg.io" <> "localhost" ->
      convertImageTag "r" "oldreg.io/myuser" = "r/oldreg.io/myuser")
  /\ (has_byte "." "oldreg.io" \/ has_byte ":" "oldreg.io"
      \/ "oldreg.io" = "localhost" ->
      convertImageTag "r" "oldreg.io/myuser" = "r/library/myuser")
  /\ convertImageTag "r" "oldreg.io/myuser/nginx" = "r/myuser/nginx".
Proof.
  apply (convertImageTag_case_table "r" "oldreg.io" "myuser" "nginx");
    apply no_slash; reflexivity.
Defined.

(** C7. For every domain and every name with three or more ['/']
    separators the rewriter returns the empty string. *)
Theorem convertImageTag_three_or_more (d image : string) :
  (3 <= separators image)%nat -> convertImageTag d image = "".
Proof.
  unfold separators, convertImageTag. intros H.
  rewrite Count_count_occ.
  destruct (count_occ ascii_dec (list_ascii_of_string image) "/"%char)
    as [|[|[|n]]];
    try lia.
  replace (Z.of_nat (S (S (S n)))) with (Z.pos (Pos.of_succ_nat n + 2)) by lia.
  destruct (Pos.of_succ_nat n + 2)%positive as [[q|q|]|[q|q|]|] eqn:Hq;
    try reflexivity; lia.
Qed.

Lemma convertImageTag_three_or_more_witness :
  (3 <= separators "a/b/c/d")%nat /\ convertImageTag "myreg.io" "a/b/c/d" = "".
Proof.
  split; [vm_compute; lia|].
  apply convertImageTag_three_or_more. vm_compute. lia.
Defined.

(** ** The registry resolver *)

Ltac step :=
  cbv beta iota zeta delta
    [bind call emit ret logrus_Error logrus_Errorf logrus_Info logrus_Infof].

Section Resolver.

Context {E : Externals}.

(** The resolver adds to the trace it is given and reads nothing of it. *)
Lemma getRegistryUrl_frame (image : string) (d : Daemon) (tr : Trace) :
  getRegistryUrl image (d, tr) =
    let '(url, (d', tr')) := getRegistryUrl image (d, []) in
    (url, (d', (tr ++ tr')%list)).
Proof.
  unfold getRegistryUrl. step.
  destruct (client_Get _ d) as [[err|resp] d'].
  - rewrite <- app_assoc. reflexivity.
  - destruct (StatusCode resp =? 200).
    + destruct (Body_Read 32 (RespBody resp)). reflexivity.
    + simpl. rewrite <- app_assoc. reflexivity.
Qed.


(** C5. The resolver has no error result, and when the connection to
    the local channel fails or the response status is not 200 the string
    it returns is the default domain [docker.io]. *)
Theorem getRegistryUrl_default_domain (image : string) (d d' : Daemon)
    (tr : Trace) (got : error + Response) :
  client_Get ("http://dockerd/" +:+ image) d = (got, d') ->
  resolver_failed got ->
  outcome (getRegistryUrl image (d, tr)) = "docker.io".
Proof.
  intros Hget Hfail. unfold getRegistryUrl, outcome. step.
  change ("http://dockerd" +:+ "/" +:+ image) with ("http://dockerd/" +:+ image).
  rewrite Hget. destruct got as [err|resp]; [reflexivity|].
  simpl in Hfail. destruct (Z.eqb_spec (StatusCode resp) 200); [lia|].
  reflexivity.
Qed.

(** X3. One [Read] into the 32-byte buffer: with status 200 the resolver
    returns at most 32 bytes, taken from the front of the body. *)
Theorem getRegistryUrl_prefix (image : string) (d d' : Daemon)
    (tr : Trace) (resp : Response) :
  client_Get ("http://dockerd/" +:+ image) d = (inr resp, d') ->
  StatusCode resp = 200 ->
  let domain := outcome (getRegistryUrl image (d, tr)) in
  (String.length domain <= 32)%nat
  /\ exists rest, body_bytes (RespBody resp) = domain +:+ rest.
Proof.
  intros Hget Hok. unfold getRegistryUrl, outcome. step.
  change ("http://dockerd" +:+ "/" +:+ image) with ("http://dockerd/" +:+ image).
  rewrite Hget, Hok. change (200 =? 200) with true. cbv iota.
  destruct (RespBody resp) as [|seg rest]; unfold Body_Read; cbv iota beta.
  - split; [simpl; lia|]. exists "". reflexivity.
  - split; [apply length_keep|].
    exists (strings.skip 32 seg +:+ body_bytes rest).
    change (body_bytes (seg :: rest)) with (seg +:+ body_bytes rest).
    rewrite <- (keep_skip 32 seg) at 1.
    generalize (strings.keep 32 seg) as front. intros front.
    induction front as [|c front IH]; [reflexivity|].
    rewrite !append_cons, IH. reflexivity.
Qed.

(** X2. With status 200 and a body that the first [Read] finds whole, the
    resolver returns the body when it has at most 32 bytes, and its first
    32 bytes when it is longer. *)
Theorem getRegistryUrl_whole_body (image : string) (d d' : Daemon)
    (tr : Trace) (resp : Response) (body : string) :
  client_Get ("http://dockerd/" +:+ image) d = (inr resp, d') ->
  StatusCode resp = 200 ->
  RespBody resp = [body] ->
  let domain := outcome (getRegistryUrl image (d, tr)) in
  ((String.length body <= 32)%nat -> domain = body)
  /\ ((32 < String.length body)%nat -> domain = String.substring 0 32 body).
Proof.
  intros Hget Hok Hbody. unfold getRegistryUrl, outcome. step.
  change ("http://dockerd" +:+ "/" +:+ image) with ("http://dockerd/" +:+ image).
  rewrite Hget, Hok, Hbody. change (200 =? 200) with true. cbv iota.
  unfold Body_Read. cbv iota beta. cbn [fst].
  split; intros Hlen.
  - apply keep_all, Hlen.
  - apply keep_substring.
Qed.

End Resolver.

Section ResolverRuns.

Import Scripted.

Lemma getRegistryUrl_prefix_witness :
  (String.length (outcome (getRegistryUrl "nginx:latest"
                             (quiet "myreg.io" "", []))) <= 32)%nat.
Proof.
  assert (Hget : client_Get "http://dockerd/nginx:latest" (quiet "myreg.io" "")
                 = (inr {| StatusCode := 200; RespBody := ["myreg.io"] |},
                    quiet "myreg.io" "")) by reflexivity.
  exact (proj1 (getRegistryUrl_prefix (E := externals) "nginx:latest"
                  (quiet "myreg.io" "") (quiet "myreg.io" "") []
                  {| StatusCode := 200; RespBody := ["myreg.io"] |}
                  Hget eq_refl)).
Defined.

Lemma getRegistryUrl_whole_body_witness :
  outcome (getRegistryUrl "nginx:latest" (quiet "myreg.io" "", [])) = "myreg.io".
Proof.
  assert (Hget : client_Get "http://dockerd/nginx:latest" (quiet "myreg.io" "")
                 = (inr {| StatusCode := 200; RespBody := ["myreg.io"] |},
                    quiet "myreg.io" "")) by reflexivity.
  destruct (getRegistryUrl_whole_body (E := externals) "nginx:latest"
              (quiet "myreg.io" "") (quiet "myreg.io" "") []
              {| StatusCode := 200; RespBody := ["myreg.io"] |} "myreg.io"
              Hget eq_refl eq_refl) as (Hshort & _).
  apply Hshort. vm_compute. lia.
Defined.

Lemma getRegistryUrl_default_domain_witness :
  outcome (getRegistryUrl "nginx:latest"
             (answering (inl "connection refused") (quiet "" ""), []))
  = "docker.io"
  /\ outcome (getRegistryUrl "nginx:latest"
                (answering (inr {| StatusCode := 404; RespBody := ["myreg.io"] |})
                           (quiet "" ""), []))
     = "docker.io".
Proof.
  split.
  - eapply (getRegistryUrl_default_domain (E := externals));
      [reflexivity|exact I].
  - eapply (getRegistryUrl_default_domain (E := externals));
      [reflexivity|simpl; lia].
Defined.

(** C6, at a body the transport delivers in two segments: the body is
    the 22 bytes [myregistry.example.com], and the resolver returns the
    11 bytes of the first segment. *)
Theorem getRegistryUrl_short_read :
  let resp := {| StatusCode := 200;
                 RespBody := ["myregistry."; "example.com"] |} in
  body_bytes (RespBody resp) = "myregistry.example.com"
  /\ outcome (getRegistryUrl "nginx:latest"
                (answering (inr resp) (quiet "" ""), []))
     = "myregistry.".
Proof. split; reflexivity. Qed.

End ResolverRuns.

(** ** The handler: the pull path *)

Section PullPath.

Context {E : Externals}.
Variables (ctx : Context) (w : ResponseWriter) (r : Request ReadCloser).
Variables (platform : option Platform) (d : Daemon).

Hypothesis form_parsed : httputils_ParseForm r = None.
Hypothesis platform_valid : requestPlatform ctx r = inr platform.
Hypothesis pull_requested : image_of r <> "".

Lemma calls_app (tr tr' : Trace) :
  calls (tr ++ tr')%list = (calls tr ++ calls tr')%list.
Proof. apply List.filter_app. Qed.

(** The whole run of the pull path. *)
Lemma pull_path_run :
  postImagesCreate ctx w r (d, []) =
  let src := srcTotalImage_of r d in
  let ret := newRetagReturn_of ctx w r platform d in
  let before :=
    ([Logged InfoLevel "imageRouter: postImageCreate"
        [LField "image" (image_of r);
         LField "repo" (Values_Get (Form r) "repo");
         LField "tag" (tag_of r)]]
     ++ trace (resolution r d)
     ++ [Called_PullImage (newImage_of r d) (tag_of r) platform
           (metaHeadersOf r) (authConfigOf r);
         Logged InfoLevel "Pull succeeds, begin to retag image %s to %s:%s"
           [LStr src; LStr (image_of r); LStr (tag_of r)];
         Called_TagImage src (image_of r) (tag_of r);
         Logged InfoLevel ("The return result of the retag is %s" +:+ newline)
           [LStr ret]]
     ++ logged_error (retagError_of ctx w r platform d)
     ++ [Logged InfoLevel
           "Retag images succeeds, begin to remove intermediate image." []])%list in
  let d3 := snd (retag_of ctx w r platform d) in
  let out := pullOutput_of ctx w r platform d in
  match familiar_of r d with
  | Panics => ((Panics, output_Close out), (d3, before))
  | Returns familiar =>
      let surfaced := surface (pullError_of ctx w r platform d) out in
      let ended := (Returns (fst surfaced), output_Close (snd surfaced)) in
      if String.eqb ret familiar
      then (ended, (d3, (before ++ [Logged InfoLevel "All succeed." []])%list))
      else (ended,
            (snd (backend_ImageDelete src false true d3),
             (before
              ++ Called_ImageDelete src false true
                 :: logged_error (removeError_of ctx w r platform d)
              ++ [Logged InfoLevel "All succeed." []])%list))
  end.
Proof.
  unfold postImagesCreate. rewrite form_parsed. step.
  rewrite platform_valid. cbv iota.
  fold (image_of r) (tag_of r).
  destruct (String.eqb_spec (image_of r) "") as [Hempty|_]; [contradiction|].
  cbv [negb]. cbv iota.
  unfold pullBranch. step. rewrite getRegistryUrl_frame.
  unfold familiar_of, removeError_of, newRetagReturn_of, retagError_of,
    retag_of, pullOutput_of, pullError_of, pull_of, srcTotalImage_of,
    newImage_of, registryUrl_of, resolution, outcome, trace.
  destruct (getRegistryUrl (image_of r +:+ ":" +:+ tag_of r) (d, []))
    as [registryUrl [d1 tr1]].
  cbn [fst snd].
  destruct (backend_PullImage _ _ _ _ _ _ _ d1) as [[err out] d2].
  cbn [fst snd].
  destruct (backend_TagImage _ _ _ d2) as [[ret retagError] d3].
  cbn [fst snd].
  destruct retagError as [e|]; cbn [logged_error];
    (destruct (reference_FamiliarString _) as [familiar|];
     [ destruct (String.eqb ret familiar); cbn [negb];
       [ unfold finish; destruct (surface err out);
         cbn [fst snd]; repeat rewrite <- app_assoc; reflexivity
       | destruct (backend_ImageDelete _ false true d3) as [[items removeError] d4];
         cbn [fst snd];
         destruct removeError; unfold finish; destruct (surface err out);
         cbn [fst snd logged_error]; repeat rewrite <- app_assoc; reflexivity ]
     | repeat rewrite <- app_assoc; reflexivity ]).
Qed.


Lemma calls_logged_error (e : option error) : calls (logged_error e) = [].
Proof. destruct e; reflexivity. Qed.

(** How the pull path ends, and with which response writer. *)
Lemma pull_path_outcome :
  outcome (postImagesCreate ctx w r (d, [])) =
  let out := pullOutput_of ctx w r platform d in
  match familiar_of r d with
  | Panics => (Panics, output_Close out)
  | Returns _ =>
      let surfaced := surface (pullError_of ctx w r platform d) out in
      (Returns (fst surfaced), output_Close (snd surfaced))
  end.
Proof.
  rewrite pull_path_run. cbv zeta. unfold outcome.
  destruct (familiar_of r d) as [familiar|]; [|reflexivity].
  destruct (String.eqb _ familiar); reflexivity.
Qed.




End PullPath.

Section PullClaims.

Context {E : Externals}.
Variables (ctx : Context) (w : ResponseWriter) (r : Request ReadCloser).
Variables (platform : option Platform) (d : Daemon).





End PullClaims.

(** ** The handler: validation and the import path *)

Section OtherPaths.

Context {E : Externals}.
Variables (ctx : Context) (w : ResponseWriter) (r : Request ReadCloser).
Variable d : Daemon.

(** Line 93: a form that does not parse ends the handler before anything
    else happens. *)
Lemma bad_form_run (err : error) :
  httputils_ParseForm r = Some err ->
  postImagesCreate ctx w r (d, []) = ((Returns (Some err), w), (d, [])).
Proof. intros H. unfold postImagesCreate. rewrite H. reflexivity. Qed.

(** Lines 118 and 121: a platform that does not parse or validate ends the
    handler with the writer closed and no call made. *)
Lemma bad_platform_run (err : error) :
  httputils_ParseForm r = None ->
  requestPlatform ctx r = inl err ->
  postImagesCreate ctx w r (d, []) =
  ((Returns (Some err),
    output_Close (Header_Set "Content-Type" "application/json" w)),
   (d, [Logged InfoLevel "imageRouter: postImageCreate"
          [LField "image" (image_of r);
           LField "repo" (Values_Get (Form r) "repo");
           LField "tag" (tag_of r)]])).
Proof.
  intros Hform Hplatform. unfold postImagesCreate. rewrite Hform. step.
  rewrite Hplatform. reflexivity.
Qed.

(** The whole run of the import path. *)
Lemma import_path_run (platform : option Platform) :
  httputils_ParseForm r = None ->
  requestPlatform ctx r = inr platform ->
  image_of r = "" ->
  postImagesCreate ctx w r (d, []) =
  let imported := import_of w r platform d in
  let surfaced := surface (fst (fst imported)) (snd (fst imported)) in
  ((Returns (fst surfaced), output_Close (snd surfaced)),
   (snd imported,
    [Logged InfoLevel "imageRouter: postImageCreate"
       [LField "image" (image_of r);
        LField "repo" (Values_Get (Form r) "repo");
        LField "tag" (tag_of r)];
     Called_ImportImage (Values_Get (Form r) "fromSrc")
       (Values_Get (Form r) "repo") (os_of platform) (tag_of r)
       (Values_Get (Form r) "message") (Body r)
       (Values_index (Form r) "changes")])).
Proof.
  intros Hform Hplatform Himport. unfold postImagesCreate. rewrite Hform. step.
  rewrite Hplatform. cbv iota. fold (image_of r) (tag_of r).
  rewrite Himport. cbn [String.eqb negb]. cbv iota.
  unfold importBranch. step. unfold import_of, os_of.
  fold (tag_of r).
  destruct (backend_ImportImage _ _ _ _ _ _ _ _ d) as [[err out] d1].
  cbn [fst snd]. unfold finish. destruct (surface err out). reflexivity.
Qed.

(** Without a [platform] field no platform is declared. *)
Lemma requestPlatform_absent :
  Values_Get (Form r) "platform" = "" -> requestPlatform ctx r = inr None.
Proof.
  intros H. unfold requestPlatform. rewrite H.
  destruct (versions_GreaterThanOrEqualTo _ _); reflexivity.
Qed.

(** C8. For a request whose [fromImage] field is empty: no call other
    than [ImportImage] is ever made, so the resolver is not asked; and
    once the form and the platform are accepted, [ImportImage] is called
    once, with the [fromSrc] field, the [repo] field, the OS of the
    declared platform (the empty string without one), the tag, the
    message, the request body and the [changes] values, and its error is
    returned if nothing was flushed and written to the stream otherwise. *)
Theorem empty_fromImage_imports :
  Values_Get (Form r) "fromImage" = "" ->
  let ran := postImagesCreate ctx w r (d, []) in
  (forall e, In e (calls (trace ran)) ->
     exists os,
       e = Called_ImportImage (Values_Get (Form r) "fromSrc")
             (Values_Get (Form r) "repo") os (Values_Get (Form r) "tag")
             (Values_Get (Form r) "message") (Body r)
             (Values_index (Form r) "changes"))
  /\ (forall platform,
        httputils_ParseForm r = None ->
        requestPlatform ctx r = inr platform ->
        let os := match platform with
                  | Some p => OS p
                  | None => ""
                  end in
        let imported :=
          backend_ImportImage (Values_Get (Form r) "fromSrc")
            (Values_Get (Form r) "repo") os (Values_Get (Form r) "tag")
            (Values_Get (Form r) "message") (Body r)
            (Header_Set "Content-Type" "application/json" w)
            (Values_index (Form r) "changes") d in
        calls (trace ran) =
          [Called_ImportImage (Values_Get (Form r) "fromSrc")
             (Values_Get (Form r) "repo") os (Values_Get (Form r) "tag")
             (Values_Get (Form r) "message") (Body r)
             (Values_index (Form r) "changes")]
        /\ outcome ran =
             match fst (fst imported) with
             | None => (Returns None, output_Close (snd (fst imported)))
             | Some err =>
                 if output_Flushed (snd (fst imported))
                 then (Returns None,
                       output_Close
                         (output_Write (streamformatter_FormatError err)
                                       (snd (fst imported))))
                 else (Returns (Some err), output_Close (snd (fst imported)))
             end).
Proof.
  intros Himport ran. split.
  - destruct (httputils_ParseForm r) as [err|] eqn:Hform.
    { unfold ran. rewrite (bad_form_run err Hform). intros e []. }
    destruct (requestPlatform ctx r) as [err|platform] eqn:Hplatform.
    { unfold ran. rewrite (bad_platform_run err Hform Hplatform). intros e []. }
    unfold ran. rewrite (import_path_run platform Hform Hplatform Himport).
    intros e [<-|[]]. exists (os_of platform). reflexivity.
  - intros platform Hform Hplatform os imported.
    unfold ran. rewrite (import_path_run platform Hform Hplatform Himport).
    cbv zeta. change (import_of w r platform d) with imported.
    split; [reflexivity|]. unfold outcome, surface. cbn [fst snd].
    destruct (fst (fst imported)) as [err|]; [|reflexivity].
    destruct (output_Flushed (snd (fst imported))); reflexivity.
Qed.

End OtherPaths.

(** ** What the error of a best-effort step can change *)

Section BestEffort.

Context {E : Externals}.
Variables (ctx : Context) (w : ResponseWriter) (r : Request ReadCloser).
Variable d : Daemon.

(** C3. Whatever the backend retag and the backend delete return or do,
    the handler ends the same way and leaves the same response writer: the
    run with any other [TagImage] and [ImageDelete] has the same outcome.
    On the pull path that outcome is fixed by the pull alone (and by
    whether the familiar-string conversion returns): the returned error
    is nil or the pull error, and the one thing the handler itself writes
    is the formatted pull error. *)
Theorem cleanup_errors_never_surface
    (tagImage : string -> string -> string -> Daemon ->
                (string * option error) * Daemon)
    (imageDelete : string -> bool -> bool -> Daemon ->
                   (list ImageDeleteResponseItem * option error) * Daemon) :
  outcome (postImagesCreate (E := with_cleanup E tagImage imageDelete)
             ctx w r (d, []))
  = outcome (postImagesCreate (E := E) ctx w r (d, []))
  /\ (forall platform,
        httputils_ParseForm r = None ->
        requestPlatform ctx r = inr platform ->
        image_of r <> "" ->
        let pullError := pullError_of ctx w r platform d in
        let output := pullOutput_of ctx w r platform d in
        outcome (postImagesCreate ctx w r (d, [])) =
          match familiar_of r d with
          | Panics => (Panics, output_Close output)
          | Returns _ =>
              match pullError with
              | None => (Returns None, output_Close output)
              | Some e =>
                  if output_Flushed output
                  then (Returns None,
                        output_Close
                          (output_Write (streamformatter_FormatError e) output))
                  else (Returns (Some e), output_Close output)
              end
          end).
Proof.
  set (E' := with_cleanup E tagImage imageDelete).
  assert (Hexplicit : forall platform,
        httputils_ParseForm r = None ->
        requestPlatform ctx r = inr platform ->
        image_of r <> "" ->
        outcome (postImagesCreate ctx w r (d, [])) =
          match familiar_of r d with
          | Panics => (Panics, output_Close (pullOutput_of ctx w r platform d))
          | Returns _ =>
              match pullError_of ctx w r platform d with
              | None => (Returns None,
                         output_Close (pullOutput_of ctx w r platform d))
              | Some e =>
                  if output_Flushed (pullOutput_of ctx w r platform d)
                  then (Returns None,
                        output_Close
                          (output_Write (streamformatter_FormatError e)
                                        (pullOutput_of ctx w r platform d)))
                  else (Returns (Some e),
                        output_Close (pullOutput_of ctx w r platform d))
              end
          end).
  { intros platform Hform Hplatform Hpull.
    rewrite (pull_path_outcome ctx w r platform d Hform Hplatform Hpull).
    cbv zeta. destruct (familiar_of r d); [|reflexivity].
    unfold surface. destruct (pullError_of ctx w r platform d); [|reflexivity].
    destruct (output_Flushed _); reflexivity. }
  split; [|exact Hexplicit].
  destruct (httputils_ParseForm r) as [err|] eqn:Hform.
  { exact (eq_trans
             (f_equal outcome (bad_form_run (E := E') ctx w r d err Hform))
             (eq_sym (f_equal outcome (bad_form_run ctx w r d err Hform)))). }
  destruct (requestPlatform ctx r) as [err|platform] eqn:Hplatform.
  { exact (eq_trans
             (f_equal outcome
                (bad_platform_run (E := E') ctx w r d err Hform Hplatform))
             (eq_sym (f_equal outcome
                (bad_platform_run ctx w r d err Hform Hplatform)))). }
  destruct (String.eqb_spec (image_of r) "") as [Himport|Hpull].
  - exact (eq_trans
             (f_equal outcome
                (import_path_run (E := E') ctx w r d platform
                   Hform Hplatform Himport))
             (eq_sym (f_equal outcome
                (import_path_run ctx w r d platform Hform Hplatform Himport)))).
  - exact (eq_trans
             (pull_path_outcome (E := E') ctx w r platform d
                Hform Hplatform Hpull)
             (eq_sym (pull_path_outcome ctx w r platform d
                Hform Hplatform Hpull))).
Qed.

(** X26. The error of [reference.ParseNormalizedNamed] at line 164 is
    never read: a parser that returns the same references with other
    errors, or with none, gives the same run for every request, with the
    same outcome, the same calls and the same log. *)
Theorem parse_error_never_read
    (parser : string -> option Named * option error) :
  (forall s, fst (parser s) = fst (reference_ParseNormalizedNamed s)) ->
  postImagesCreate (E := with_parser E parser) ctx w r (d, [])
  = postImagesCreate (E := E) ctx w r (d, []).
Proof.
  intros Hagree. set (E' := with_parser E parser).
  destruct (httputils_ParseForm r) as [err|] eqn:Hform.
  { exact (eq_trans (bad_form_run (E := E') ctx w r d err Hform)
             (eq_sym (bad_form_run ctx w r d err Hform))). }
  destruct (requestPlatform ctx r) as [err|platform] eqn:Hplatform.
  { exact (eq_trans (bad_platform_run (E := E') ctx w r d err Hform Hplatform)
             (eq_sym (bad_platform_run ctx w r d err Hform Hplatform))). }
  destruct (String.eqb_spec (image_of r) "") as [Himport|Hpull].
  - exact (eq_trans
             (import_path_run (E := E') ctx w r d platform
                Hform Hplatform Himport)
             (eq_sym (import_path_run ctx w r d platform
                        Hform Hplatform Himport))).
  - pose proof (pull_path_run (E := E') ctx w r platform d
                  Hform Hplatform Hpull) as Hother.
    cbv zeta in Hother.
    change (familiar_of (E := E') r d)
      with (reference_FamiliarString (fst (parser (srcTotalImage_of r d))))
      in Hother.
    rewrite Hagree in Hother.
    rewrite (pull_path_run ctx w r platform d Hform Hplatform Hpull).
    exact Hother.
Qed.

End BestEffort.

(** ** Runs in the scripted environment *)

Section HandlerRuns.

Import Scripted.

Ltac by_run := vm_compute; first [reflexivity | discriminate | exact I].

(** Closes [x = v] from a proof of [x = y], computing [y]. *)
Ltac from H := etransitivity; [exact H|by_run].




(** C2, at [fromImage=a/b/c/d&tag=latest]. The rewriter returns the empty
    name, the backend rejects it with an error before anything is
    written, the retag is still called, [":latest"] has no parse, and the
    handler ends in the panic of the conversion: the pull error is not
    returned and the stream holds nothing. *)
Theorem pull_error_lost_on_unparsable_reference :
  let ran := run rejecting pull_overslashed in
  pullError_of v140 fresh pull_overslashed None rejecting
  = Some "invalid reference format"
  /\ calls (trace ran)
     = [Called_Get "http://dockerd/a/b/c/d:latest";
        Called_PullImage "" "latest" None ∅ "";
        Called_TagImage ":latest" "a/b/c/d" "latest"]
  /\ reference_ParseNormalizedNamed ":latest"
     = (None, Some "invalid reference format")
  /\ outcome ran
     = (Panics,
        {| headers := [("Content-Type", "application/json")];
           chunks := [];
           flushed := false;
           closed := true |}).
Proof. repeat split; by_run. Qed.

Lemma cleanup_errors_never_surface_witness :
  outcome (postImagesCreate
             (E := with_cleanup externals
                     (fun _ _ _ d => (("", Some "No such image"), d))
                     (fun _ _ _ d => (([], Some "conflict"), d)))
             v140 fresh pull_nginx (interrupted, []))
  = (Returns None,
     {| headers := [("Content-Type", "application/json")];
        chunks := ["{status:Pulling}"; "{error:unexpected EOF}"];
        flushed := true;
        closed := true |}).
Proof.
  assert (Hform : httputils_ParseForm pull_nginx = None) by by_run.
  assert (Hplatform : requestPlatform v140 pull_nginx = inr None) by by_run.
  assert (Hpull : image_of pull_nginx <> "") by by_run.
  destruct (cleanup_errors_never_surface (E := externals) v140 fresh
              pull_nginx interrupted
              (fun _ _ _ d => (("", Some "No such image"), d))
              (fun _ _ _ d => (([], Some "conflict"), d)))
    as (Hsame & Hexplicit).
  from (eq_trans Hsame (Hexplicit None Hform Hplatform Hpull)).
Defined.

(** C9, at [fromImage=a/b/c/d&tag=latest] and at [fromImage=nginx] without
    a tag. In both, [newImage + ":" + tag] has no parse, line 164 drops
    the error and keeps the nil reference, and the conversion of line 165
    panics on it: the comparison is not made, no delete is called
    although the retag returned a string, and the handler ends in the
    panic. *)
Theorem failed_parse_panics_before_comparison :
  let overslashed := run (quiet "docker.io" "a/b/c/d:latest") pull_overslashed in
  let untagged := run (quiet "docker.io" "nginx") pull_untagged in
  let unwound :=
    (@Panics (option string),
     {| headers := [("Content-Type", "application/json")];
        chunks := [];
        flushed := false;
        closed := true |}) in
  (srcTotalImage_of pull_overslashed (quiet "docker.io" "a/b/c/d:latest")
   = ":latest"
   /\ reference_ParseNormalizedNamed ":latest"
      = (None, Some "invalid reference format")
   /\ newRetagReturn_of v140 fresh pull_overslashed None
        (quiet "docker.io" "a/b/c/d:latest") = "a/b/c/d:latest"
   /\ deletes (trace overslashed) = []
   /\ outcome overslashed = unwound)
  /\ (srcTotalImage_of pull_untagged (quiet "docker.io" "nginx")
      = "docker.io/library/nginx:"
      /\ reference_ParseNormalizedNamed "docker.io/library/nginx:"
         = (None, Some "invalid reference format")
      /\ newRetagReturn_of v140 fresh pull_untagged None
           (quiet "docker.io" "nginx") = "nginx"
      /\ deletes (trace untagged) = []
      /\ outcome untagged = unwound).
Proof. repeat split; by_run. Qed.

Lemma parse_error_never_read_witness :
  postImagesCreate
    (E := with_parser externals (fun s => (fst (parse s), None)))
    v140 fresh pull_overslashed (rejecting, [])
  = run rejecting pull_overslashed.
Proof.
  assert (Hagree : forall s,
            fst (fst (parse s), @None string)
            = fst (reference_ParseNormalizedNamed s)) by reflexivity.
  exact (parse_error_never_read (E := externals) v140 fresh pull_overslashed
           rejecting (fun s => (fst (parse s), None)) Hagree).
Defined.

Lemma empty_fromImage_imports_witness :
  calls (trace (run (quiet "" "") import_tarball))
  = [Called_ImportImage "-" "myrepo" "linux" "v1" "imported" "tarball"
       ["CMD sh"; "ENV a=b"]].
Proof.
  assert (Himport : Values_Get (Form import_tarball) "fromImage" = "")
    by by_run.
  assert (Hform : httputils_ParseForm import_tarball = None) by by_run.
  assert (Hplatform : requestPlatform v140 import_tarball
                      = inr (Some {| OS := "linux"; Architecture := "amd64";
                                     Variant := "" |})) by by_run.
  destruct (empty_fromImage_imports (E := externals) v140 fresh
              import_tarball (quiet "" "") Himport)
    as (_ & Hvalid).
  destruct (Hvalid _ Hform Hplatform) as (Hcalls & _).
  from Hcalls.
Defined.

End HandlerRuns.

(** * Further properties of the rewriter, the resolver and the handler *)

(** ** The rewriter *)

Lemma Count_zero_absent (sep : ascii) (s : string) :
  strings.Count s sep = 0 -> ~ has_byte sep s.
Proof.
  unfold has_byte. rewrite Count_count_occ. intros H.
  apply (count_occ_not_In ascii_dec). lia.
Qed.

(** Where the separator occurs, the string splits at its first
    occurrence: the part before it is free of it, and the part after it
    holds one occurrence less. *)
Lemma IndexRune_split (sep : ascii) (s : string) :
  0 < strings.Count s sep ->
  let i := strings.IndexRune s sep in
  s = strings.slice_to s i +:+ String sep (strings.slice_from s (i + 1))
  /\ ~ has_byte sep (strings.slice_to s i)
  /\ strings.Count (strings.slice_from s (i + 1)) sep = strings.Count s sep - 1.
Proof.
  induction s as [|c s IH]; [simpl; lia|].
  cbn [strings.Count strings.IndexRune].
  destruct (Ascii.eqb_spec c sep) as [->|Hne].
  - intros _. cbv zeta. unfold strings.slice_to, strings.slice_from. simpl.
    repeat split; [unfold has_byte; simpl; tauto|lia].
  - intros Hpos. specialize (IH ltac:(lia)). cbv zeta in IH.
    destruct IH as (Hsplit & Hfree & Hcount).
    pose proof (IndexRune_range sep s ltac:(lia)) as Hrange.
    destruct (Z.ltb_spec (strings.IndexRune s sep) 0) as [|_]; [lia|].
    cbv zeta. unfold strings.slice_to, strings.slice_from in *.
    replace (Z.to_nat (strings.IndexRune s sep + 1))
      with (S (Z.to_nat (strings.IndexRune s sep))) by lia.
    replace (Z.to_nat (strings.IndexRune s sep + 1 + 1))
      with (S (Z.to_nat (strings.IndexRune s sep + 1))) by lia.
    cbn [strings.keep strings.skip]. rewrite append_cons.
    repeat split.
    + f_equal. exact Hsplit.
    + unfold has_byte in *. simpl. intros [Heq|Hin]; [congruence|tauto].
    + rewrite Hcount. lia.
Qed.

Lemma separators_Count (s : string) :
  strings.Count s "/" = Z.of_nat (separators s).
Proof. apply Count_count_occ. Qed.

(** Up to two separators, the rewriter puts the domain and a slash in
    front of a path that does not depend on the domain and holds exactly
    one separator. *)
Lemma convertImageTag_parts (image : string) :
  (separators image <= 2)%nat ->
  exists path,
    separators path = 1%nat
    /\ forall d, convertImageTag d image = d +:+ "/" +:+ path.
Proof.
  intros Hle. pose proof (separators_Count image) as Hcount.
  assert (Hcases : strings.Count image "/" = 0 \/ strings.Count image "/" = 1
                   \/ strings.Count image "/" = 2) by lia.
  destruct Hcases as [H0|[H1|H2]].
  - exists (defaultUserName +:+ "/" +:+ image). split.
    + apply Nat2Z.inj. rewrite <- separators_Count.
      change (defaultUserName +:+ "/" +:+ image) with ("library/" +:+ image).
      rewrite Count_app, H0. reflexivity.
    + intros d. unfold convertImageTag. rewrite H0. reflexivity.
  - destruct (IndexRune_split "/" image ltac:(lia)) as (Hsplit & Hfree & Hrest).
    rewrite H1 in Hrest.
    destruct (negb (strings.ContainsAny
                      (strings.slice_to image (strings.IndexRune image "/")) ".:")
              && negb (String.eqb
                         (strings.slice_to image (strings.IndexRune image "/"))
                         "localhost")) eqn:Huser.
    + exists image. split; [apply Nat2Z.inj; rewrite <- separators_Count; exact H1|].
      intros d. unfold convertImageTag. rewrite H1, Huser. reflexivity.
    + exists (defaultUserName +:+ "/"
              +:+ strings.slice_from image (strings.IndexRune image "/" + 1)).
      split.
      * apply Nat2Z.inj. rewrite <- separators_Count.
        change (defaultUserName +:+ "/" +:+ ?x) with ("library/" +:+ x).
        rewrite Count_app, Hrest. reflexivity.
      * intros d. unfold convertImageTag. rewrite H1, Huser. reflexivity.
  - destruct (IndexRune_split "/" image ltac:(lia)) as (Hsplit & Hfree & Hrest).
    rewrite H2 in Hrest.
    exists (strings.slice_from image (strings.IndexRune image "/" + 1)). split.
    + apply Nat2Z.inj. rewrite <- separators_Count, Hrest. reflexivity.
    + intros d. unfold convertImageTag. rewrite H2. reflexivity.
Qed.

Lemma append_nonempty (s t : string) (c : ascii) : s +:+ String c t <> "".
Proof. destruct s; discriminate. Qed.

(** X4. The rewriter returns the empty string for the names with three
    or more separators and for no other name: every other result starts
    with the domain and a slash. *)
Theorem convertImageTag_empty_iff (d image : string) :
  convertImageTag d image = "" <-> (3 <= separators image)%nat.
Proof.
  split.
  - intros Hempty. destruct (le_lt_dec (separators image) 2) as [Hle|Hgt]; [|lia].
    destruct (convertImageTag_parts image Hle) as (path & _ & Hshape).
    rewrite Hshape in Hempty. exfalso.
    exact (append_nonempty d path "/" Hempty).
  - intros Hge. unfold convertImageTag. rewrite separators_Count.
    destruct (separators image) as [|[|[|n]]]; try lia.
    replace (Z.of_nat (S (S (S n)))) with (Z.pos (Pos.of_succ_nat n + 2)) by lia.
    destruct (Pos.of_succ_nat n + 2)%positive as [[q|q|]|[q|q|]|] eqn:Hq;
      try reflexivity; lia.
Qed.

(** X5. For a name with at most two separators the result is the domain,
    a slash, and a path with exactly one separator: a namespace and a
    repository. So the result holds two separators more than the
    domain. *)
Theorem convertImageTag_namespace_and_repository (d image : string) :
  (separators image <= 2)%nat ->
  (exists path, convertImageTag d image = d +:+ "/" +:+ path
                /\ separators path = 1%nat)
  /\ separators (convertImageTag d image) = (separators d + 2)%nat.
Proof.
  intros Hle. destruct (convertImageTag_parts image Hle) as (path & Hone & Hshape).
  split; [exists path; auto|].
  apply Nat2Z.inj. rewrite <- separators_Count, Hshape, Count_app.
  change ("/" +:+ path) with (String "/" path). cbn [strings.Count].
  rewrite !separators_Count, Hone. simpl. lia.
Qed.

Lemma convertImageTag_namespace_and_repository_witness :
  separators (convertImageTag "myreg.io:5000" "localhost/nginx") = 2%nat.
Proof.
  assert (Hle : (separators "localhost/nginx" <= 2)%nat) by (vm_compute; lia).
  exact (proj2 (convertImageTag_namespace_and_repository "myreg.io:5000"
                  "localhost/nginx" Hle)).
Defined.

(** X6. Rewriting composes: a name with at most two separators, rewritten
    under a domain without a slash and then rewritten again under another
    domain, is the name rewritten under that other domain. Only the
    domain is replaced. *)
Theorem convertImageTag_rewrite_again (d d' image : string) :
  ~ has_byte "/" d ->
  (separators image <= 2)%nat ->
  convertImageTag d' (convertImageTag d image) = convertImageTag d' image.
Proof.
  intros Hd Hle. destruct (convertImageTag_parts image Hle) as (path & Hone & Hshape).
  rewrite (Hshape d), (Hshape d').
  assert (Hcount : strings.Count (d +:+ "/" +:+ path) "/" = 2).
  { rewrite Count_app. change ("/" +:+ path) with (String "/" path).
    cbn [strings.Count]. rewrite (Count_absent _ d Hd), separators_Count, Hone.
    reflexivity. }
  unfold convertImageTag at 1. rewrite Hcount.
  rewrite (slice_from_rest d path "/"); [reflexivity|].
  apply (IndexRune_first _ d path Hd).
Qed.

Lemma convertImageTag_rewrite_again_witness :
  convertImageTag "mirror.local" (convertImageTag "docker.io" "quay.io/nginx")
  = convertImageTag "mirror.local" "quay.io/nginx".
Proof.
  apply convertImageTag_rewrite_again.
  - apply no_slash. reflexivity.
  - vm_compute. lia.
Defined.

(** ** The resolver *)

Section ResolverEdges.

Context {E : Externals}.

(** X7. Whatever the resolver process answers, the domain the resolver
    returns has at most 32 bytes. *)
Theorem getRegistryUrl_at_most_32_bytes (image : string) (d : Daemon)
    (tr : Trace) :
  (String.length (outcome (getRegistryUrl image (d, tr))) <= 32)%nat.
Proof.
  unfold getRegistryUrl, outcome. step.
  destruct (client_Get _ d) as [[err|resp] d']; [cbn; lia|].
  destruct (StatusCode resp =? 200); [|cbn; lia].
  destruct (RespBody resp) as [|seg rest]; unfold Body_Read; cbv iota beta.
  - cbn. lia.
  - cbn [fst]. apply length_keep.
Qed.

Lemma append_empty_inv (s t : string) : s +:+ t = "" -> s = "".
Proof. destruct s; [reflexivity|discriminate]. Qed.

(** X8. A 200 answer with an empty body does not fall back to the
    default domain: the resolver returns the empty string. *)
Theorem getRegistryUrl_empty_body (image : string) (d d' : Daemon)
    (tr : Trace) (resp : Response) :
  client_Get ("http://dockerd/" +:+ image) d = (inr resp, d') ->
  StatusCode resp = 200 ->
  body_bytes (RespBody resp) = "" ->
  outcome (getRegistryUrl image (d, tr)) = ""
  /\ outcome (getRegistryUrl image (d, tr)) <> defaultRegistryUrl.
Proof.
  intros Hget Hok Hbody.
  assert (Hempty : outcome (getRegistryUrl image (d, tr)) = "").
  { unfold getRegistryUrl, outcome. step.
    change ("http://dockerd" +:+ "/" +:+ image) with ("http://dockerd/" +:+ image).
    rewrite Hget, Hok. change (200 =? 200) with true. cbv iota.
    destruct (RespBody resp) as [|seg rest]; unfold Body_Read; cbv iota beta;
      [reflexivity|].
    cbn [fst]. change (body_bytes (seg :: rest)) with (seg +:+ body_bytes rest)
      in Hbody.
    apply append_empty_inv in Hbody. rewrite Hbody. reflexivity. }
  split; [exact Hempty|]. rewrite Hempty. discriminate.
Qed.

End ResolverEdges.

(** ** The handler: rejected requests, the output, the platform *)

Section HandlerEdges.

Context {E : Externals}.
Variables (ctx : Context) (w : ResponseWriter) (r : Request ReadCloser).
Variable d : Daemon.

(** When the handler takes the platform from the request. *)
Lemma requestPlatform_rejected (err : error) :
  versions_GreaterThanOrEqualTo (VersionFromContext ctx) "1.32" = true ->
  Values_Get (Form r) "platform" <> "" ->
  platforms_Parse (Values_Get (Form r) "platform") = inl err
  \/ (exists sp, platforms_Parse (Values_Get (Form r) "platform") = inr sp
                 /\ system_ValidatePlatform sp = Some err) ->
  requestPlatform ctx r = inl err.
Proof.
  intros Hnew Hgiven Hbad. unfold requestPlatform. rewrite Hnew.
  destruct (String.eqb_spec (Values_Get (Form r) "platform") "");
    [contradiction|].
  cbn [negb]. destruct Hbad as [Hparse|(sp & Hparse & Hvalid)]; rewrite Hparse.
  - reflexivity.
  - rewrite Hvalid. reflexivity.
Qed.

(** X9. A rejected request reaches nothing. When the form does not parse,
    the handler returns that error, makes no call, writes no log and
    leaves the response writer as it was, not even closed. When, on API
    version 1.32 or later, the platform field is given and does not parse
    or does not validate, the handler returns that error, makes no call,
    and leaves the writer with the content type set and closed. *)
Theorem postImagesCreate_rejected_request (err : error) :
  (httputils_ParseForm r = Some err ->
   postImagesCreate ctx w r (d, []) = ((Returns (Some err), w), (d, [])))
  /\ (httputils_ParseForm r = None ->
      versions_GreaterThanOrEqualTo (VersionFromContext ctx) "1.32" = true ->
      Values_Get (Form r) "platform" <> "" ->
      platforms_Parse (Values_Get (Form r) "platform") = inl err
      \/ (exists sp, platforms_Parse (Values_Get (Form r) "platform") = inr sp
                     /\ system_ValidatePlatform sp = Some err) ->
      let ran := postImagesCreate ctx w r (d, []) in
      outcome ran
      = (Returns (Some err),
         output_Close (Header_Set "Content-Type" "application/json" w))
      /\ calls (trace ran) = []
      /\ fst (snd ran) = d).
Proof.
  split.
  - apply bad_form_run.
  - intros Hform Hnew Hgiven Hbad ran. unfold ran.
    rewrite (bad_platform_run ctx w r d err Hform
               (requestPlatform_rejected err Hnew Hgiven Hbad)).
    repeat split.
Qed.

(** X10. Once the form has parsed, every way out of the handler closes
    the output: a rejected platform, the import path, the pull path, and
    the panic of the pull path. *)
Theorem postImagesCreate_closes_output :
  httputils_ParseForm r = None ->
  exists output, snd (outcome (postImagesCreate ctx w r (d, [])))
                 = output_Close output.
Proof.
  intros Hform.
  destruct (requestPlatform ctx r) as [err|platform] eqn:Hplatform.
  { rewrite (bad_platform_run ctx w r d err Hform Hplatform). eexists. reflexivity. }
  destruct (String.eqb_spec (image_of r) "") as [Himport|Hpull].
  - rewrite (import_path_run ctx w r d platform Hform Hplatform Himport).
    eexists. reflexivity.
  - rewrite (pull_path_outcome ctx w r platform d Hform Hplatform Hpull).
    cbv zeta. destruct (familiar_of r d); eexists; reflexivity.
Qed.



End HandlerEdges.

Section EdgeRuns.

Import Scripted ScriptedRoutes.

Ltac by_run := vm_compute; first [reflexivity | discriminate | exact I].
Ltac from H := etransitivity; [exact H|by_run].

Lemma getRegistryUrl_empty_body_witness :
  outcome (getRegistryUrl "nginx:latest"
             (answering (inr {| StatusCode := 200; RespBody := [] |})
                        (quiet "" ""), []))
  = "".
Proof.
  assert (Hget : client_Get "http://dockerd/nginx:latest"
                   (answering (inr {| StatusCode := 200; RespBody := [] |})
                              (quiet "" ""))
                 = (inr {| StatusCode := 200; RespBody := [] |},
                    answering (inr {| StatusCode := 200; RespBody := [] |})
                              (quiet "" ""))) by reflexivity.
  exact (proj1 (getRegistryUrl_empty_body (E := externals) "nginx:latest"
                  _ _ [] _ Hget eq_refl eq_refl)).
Defined.

Lemma postImagesCreate_rejected_request_witness :
  run (quiet "myreg.io" "") malformed
  = ((Returns (Some "invalid URL escape"), fresh), (quiet "myreg.io" "", []))
  /\ calls (trace (run (quiet "myreg.io" "") (pull_on "plan9"))) = [].
Proof.
  destruct (postImagesCreate_rejected_request (E := externals) v140 fresh
              malformed (quiet "myreg.io" "") "invalid URL escape")
    as (Hform & _).
  destruct (postImagesCreate_rejected_request (E := externals) v140 fresh
              (pull_on "plan9") (quiet "myreg.io" "") "invalid platform os")
    as (_ & Hplatform).
  split.
  - apply Hform. by_run.
  - assert (Hparsed : httputils_ParseForm (pull_on "plan9") = None) by by_run.
    assert (Hnew : versions_GreaterThanOrEqualTo (VersionFromContext v140) "1.32"
                   = true) by by_run.
    assert (Hgiven : Values_Get (Form (pull_on "plan9")) "platform" <> "")
      by by_run.
    refine (proj1 (proj2 (Hplatform Hparsed Hnew Hgiven _))).
    right. exists {| OS := "plan9"; Architecture := "amd64"; Variant := "" |}.
    split; by_run.
Defined.

Lemma postImagesCreate_closes_output_witness :
  exists output,
    snd (outcome (run rejecting pull_overslashed)) = close output.
Proof.
  assert (Hform : httputils_ParseForm pull_overslashed = None) by by_run.
  exact (postImagesCreate_closes_output (E := externals) v140 fresh
           pull_overslashed rejecting Hform).
Defined.


End EdgeRuns.

(** * Properties of the other routes *)

Ltac route_step :=
  cbv beta iota zeta delta [route_bind route_call route_ret route_log].

Section RouteProperties.

Context {E : Externals} {P : RouteExternals E}.
Variables (ctx : Context) (w : ResponseWriter) (r : Request ReadCloser).
Variables (vars : gmap string string) (d : Daemon).

(** X13. A push without the credentials header needs credentials in the
    body: when the body does not decode, the handler returns the wrapped
    invalid-parameter error, calls no backend and leaves the response
    writer as it was (no content type, not closed). *)
Theorem postImagesPush_without_credentials (err : error) :
  httputils_ParseForm r = None ->
  Values_Get (Header r) "X-Registry-Auth" = "" ->
  decodeAuthConfigBody (Body r) = inl err ->
  postImagesPush ctx w r vars (d, [])
  = ((Some (errors_Wrap (errdefs_InvalidParameter err)
              "Bad parameters and missing X-Registry-Auth"), w),
     (d, [])).
Proof.
  intros Hform Hheader Hbody. unfold postImagesPush.
  rewrite Hform, Hheader, Hbody. reflexivity.
Qed.

(** X14. A push with a non-empty credentials header never fails on the
    credentials and never reads them from the body: the backend push is
    called once, with the route's name, the tag, the [X-Meta-] headers
    and the decoded header (the empty credentials when it does not
    decode), and its error is returned if nothing was flushed and
    written to the stream otherwise. *)
Theorem postImagesPush_with_header :
  httputils_ParseForm r = None ->
  Values_Get (Header r) "X-Registry-Auth" <> "" ->
  let ran := postImagesPush ctx w r vars (d, []) in
  let pushed :=
    fst (backend_PushImage ctx (vars_index vars "name")
           (Values_Get (Form r) "tag") (metaHeadersOf r) (authConfigOf r)
           (Header_Set "Content-Type" "application/json" w) d) in
  snd (snd ran)
  = [Route_PushImage (vars_index vars "name") (Values_Get (Form r) "tag")
       (metaHeadersOf r) (authConfigOf r)]
  /\ fst ran
     = match fst pushed with
       | None => (None, output_Close (snd pushed))
       | Some err =>
           if output_Flushed (snd pushed)
           then (None,
                 output_Close
                   (output_Write (streamformatter_FormatError err) (snd pushed)))
           else (Some err, output_Close (snd pushed))
       end.
Proof.
  intros Hform Hheader. unfold postImagesPush, authConfigOf.
  rewrite Hform.
  destruct (String.eqb_spec (Values_Get (Header r) "X-Registry-Auth") "")
    as [Hnone|_]; [contradiction|].
  cbn [negb]. cbv zeta.
  destruct (decodeAuthConfig (Values_Get (Header r) "X-Registry-Auth"));
    route_step;
    destruct (backend_PushImage _ _ _ _ _ _ d) as [[err out] d1];
    cbn [fst snd]; unfold surface;
    (destruct err; [destruct (output_Flushed out)|]); split; reflexivity.
Qed.

(** X15. A load reports its failure in the stream only: once the form
    has parsed the handler returns nil, and the backend's error is
    written to the output, formatted, whether or not anything was flushed
    before. *)
Theorem postImagesLoad_reports_in_band :
  httputils_ParseForm r = None ->
  let ran := postImagesLoad w r (d, []) in
  let loaded :=
    fst (backend_LoadImage (Body r)
           (Header_Set "Content-Type" "application/json" w)
           (httputils_BoolValueOrDefault r "quiet" true) d) in
  fst (fst ran) = None
  /\ snd (fst ran)
     = output_Close
         match fst loaded with
         | Some err =>
             output_Write (streamformatter_FormatError err) (snd loaded)
         | None => snd loaded
         end.
Proof.
  intros Hform. unfold postImagesLoad. rewrite Hform. route_step.
  destruct (backend_LoadImage _ _ _ d) as [[err out] d1].
  split; reflexivity.
Qed.


(** X17. A delete of a blank name is refused before anything happens: the
    handler returns the [missingImageError], makes no backend call,
    writes no log and leaves the response writer as it was. A form that
    does not parse is reported first. *)
Theorem deleteImages_blank_name :
  (forall err, httputils_ParseForm r = Some err ->
               deleteImages w r vars (d, []) = ((Some err, w), (d, [])))
  /\ (httputils_ParseForm r = None ->
      strings_TrimSpace (vars_index vars "name") = "" ->
      deleteImages w r vars (d, [])
      = ((Some (error_of_missingImage MissingImageError), w), (d, []))).
Proof.
  split.
  - intros err Hform. unfold deleteImages. rewrite Hform. reflexivity.
  - intros Hform Hblank. unfold deleteImages. rewrite Hform, Hblank.
    reflexivity.
Qed.

(** X18. A delete of a name that is not blank calls the backend once, with
    that name, the [force] flag, and prune set unless [noprune] is; a
    backend error is returned and nothing is written, and on success the
    list is written as JSON with status 200. *)
Theorem deleteImages_flags :
  httputils_ParseForm r = None ->
  strings_TrimSpace (vars_index vars "name") <> "" ->
  let ran := deleteImages w r vars (d, []) in
  let name := vars_index vars "name" in
  let force := httputils_BoolValue r "force" in
  let noprune := httputils_BoolValue r "noprune" in
  let deleted := fst (backend_ImageDelete name force (negb noprune) d) in
  backend_calls (snd (snd ran)) = [Route_ImageDelete name force (negb noprune)]
  /\ fst ran
     = match snd deleted with
       | Some err => (Some err, w)
       | None => httputils_WriteJSON 200 (fst deleted) w
       end.
Proof.
  intros Hform Hname. unfold deleteImages. rewrite Hform.
  destruct (String.eqb_spec (strings_TrimSpace (vars_index vars "name")) "")
    as [Hblank|_]; [contradiction|].
  route_step.
  destruct (backend_ImageDelete _ _ _ d) as [[items [err|]] d1];
    split; reflexivity.
Qed.

(** X19. A search whose [limit] field is given and is not a number is
    refused: the handler returns the error of [strconv.Atoi], calls no
    backend and writes nothing. *)
Theorem getImagesSearch_bad_limit (err : error) :
  httputils_ParseForm r = None ->
  Values_Get (Form r) "limit" <> "" ->
  strconv_Atoi (Values_Get (Form r) "limit") = inl err ->
  getImagesSearch ctx w r (d, []) = ((Some err, w), (d, [])).
Proof.
  intros Hform Hgiven Hatoi. unfold getImagesSearch, searchLimitOf.
  rewrite Hform.
  destruct (String.eqb_spec (Values_Get (Form r) "limit") "");
    [contradiction|].
  cbn [negb]. rewrite Hatoi. reflexivity.
Qed.



(** X22. A retag through the tag route answers 201 exactly when the
    backend retag succeeds: on success the handler returns nil and writes
    the status 201; on failure it returns the backend's error and writes
    nothing. The string the retag returns is not used. *)
Theorem postImagesTag_created_iff :
  httputils_ParseForm r = None ->
  let ran := postImagesTag w r vars (d, []) in
  let tagged :=
    fst (backend_TagImage (vars_index vars "name") (Values_Get (Form r) "repo")
           (Values_Get (Form r) "tag") d) in
  (snd tagged = None -> fst ran = (None, w_WriteHeader 201 w))
  /\ (forall err, snd tagged = Some err -> fst ran = (Some err, w))
  /\ backend_calls (snd (snd ran))
     = [Route_TagImage (vars_index vars "name") (Values_Get (Form r) "repo")
          (Values_Get (Form r) "tag")].
Proof.
  intros Hform. unfold postImagesTag. rewrite Hform. route_step.
  destruct (backend_TagImage _ _ _ d) as [[ret [err|]] d1]; cbn [fst snd];
    repeat split; try reflexivity; try discriminate.
  intros err' [= <-]. reflexivity.
Qed.

(** Case analysis on every scrutinee of the goal, innermost first. *)
Ltac route_cases :=
  route_step;
  repeat (match goal with
          | |- context [match ?x with _ => _ end] =>
              lazymatch x with
              | context [match _ with _ => _ end] => fail
              | _ => destruct x
              end
          end; route_step).

(** X23. No route calls the backend more than once, whatever the request
    and whatever the backend answers. *)
Theorem routes_call_backend_at_most_once :
  let once (ran : Ended * (Daemon * RouteTrace)) :=
    (length (backend_calls (snd (snd ran))) <= 1)%nat in
  once (postImagesPush ctx w r vars (d, []))
  /\ once (getImagesGet w r vars (d, []))
  /\ once (postImagesLoad w r (d, []))
  /\ once (deleteImages w r vars (d, []))
  /\ once (getImagesByName w vars (d, []))
  /\ once (getImagesJSON ctx w r (d, []))
  /\ once (getImagesHistory w vars (d, []))
  /\ once (postImagesTag w r vars (d, []))
  /\ once (getImagesSearch ctx w r (d, []))
  /\ once (postImagesPrune ctx w r (d, [])).
Proof.
  cbv zeta.
  unfold postImagesPush, getImagesGet, postImagesLoad, deleteImages,
    getImagesByName, getImagesJSON, getImagesHistory, postImagesTag,
    getImagesSearch, postImagesPrune.
  repeat split; route_cases; cbn; lia.
Qed.

(** X24. Every route that parses the form reports a form that does not
    parse before anything else: it returns that error, calls no backend,
    writes no log and leaves the response writer as it was. *)
Theorem routes_report_form_error_first (err : error) :
  httputils_ParseForm r = Some err ->
  let refused : Ended * (Daemon * RouteTrace) := ((Some err, w), (d, [])) in
  postImagesPush ctx w r vars (d, []) = refused
  /\ getImagesGet w r vars (d, []) = refused
  /\ postImagesLoad w r (d, []) = refused
  /\ deleteImages w r vars (d, []) = refused
  /\ getImagesJSON ctx w r (d, []) = refused
  /\ postImagesTag w r vars (d, []) = refused
  /\ getImagesSearch ctx w r (d, []) = refused
  /\ postImagesPrune ctx w r (d, []) = refused.
Proof.
  intros Hform. cbv zeta.
  unfold postImagesPush, getImagesGet, postImagesLoad, deleteImages,
    getImagesJSON, postImagesTag, getImagesSearch, postImagesPrune.
  rewrite Hform. repeat split.
Qed.


End RouteProperties.

Section RouteRuns.

Import Scripted ScriptedRoutes.

Ltac by_run := vm_compute; first [reflexivity | discriminate | exact I].
Ltac from H := etransitivity; [exact H|by_run].

Lemma postImagesPush_without_credentials_witness :
  fst (fst (postImagesPush v140 fresh push_anonymous (named "nginx")
              (quiet "" "", [])))
  = Some "Bad parameters and missing X-Registry-Auth: EOF".
Proof.
  assert (Hform : httputils_ParseForm push_anonymous = None) by by_run.
  assert (Hheader : Values_Get (Header push_anonymous) "X-Registry-Auth" = "")
    by by_run.
  assert (Hbody : decodeAuthConfigBody (Body push_anonymous) = inl "EOF")
    by by_run.
  from (f_equal (fun ran => fst (fst ran))
          (postImagesPush_without_credentials (P := routes) v140 fresh
             push_anonymous (named "nginx") (quiet "" "") "EOF"
             Hform Hheader Hbody)).
Defined.

Lemma postImagesPush_with_header_witness :
  snd (snd (postImagesPush v140 fresh push_with_header (named "nginx")
              (quiet "" "", [])))
  = [Route_PushImage "nginx" "latest" {[ "X-Meta-Team" := ["infra"] ]} ""].
Proof.
  assert (Hform : httputils_ParseForm push_with_header = None) by by_run.
  assert (Hheader : Values_Get (Header push_with_header) "X-Registry-Auth" <> "")
    by by_run.
  from (proj1 (postImagesPush_with_header (P := routes) v140 fresh
                 push_with_header (named "nginx") (quiet "" "")
                 Hform Hheader)).
Defined.

Lemma postImagesLoad_reports_in_band_witness :
  fst (postImagesLoad fresh plain (broken_tarball, []))
  = (None,
     {| headers := [("Content-Type", "application/json")];
        chunks := ["{error:unexpected EOF}"];
        flushed := true;
        closed := true |}).
Proof.
  assert (Hform : httputils_ParseForm plain = None) by by_run.
  destruct (postImagesLoad_reports_in_band (P := routes) fresh plain
              broken_tarball Hform) as (Hnil & Hwritten).
  from (eq_trans
          (surjective_pairing (fst (postImagesLoad fresh plain
                                      (broken_tarball, []))))
          (f_equal2 pair Hnil Hwritten)).
Defined.


Lemma deleteImages_blank_name_witness :
  deleteImages fresh plain (named "   ") (quiet "" "", [])
  = ((Some "image name cannot be blank", fresh), (quiet "" "", [])).
Proof.
  assert (Hform : httputils_ParseForm plain = None) by by_run.
  assert (Hblank : strings_TrimSpace (vars_index (named "   ") "name") = "")
    by by_run.
  exact (proj2 (deleteImages_blank_name (P := routes) fresh plain
                  (named "   ") (quiet "" "")) Hform Hblank).
Defined.

Lemma deleteImages_flags_witness :
  backend_calls (snd (snd (deleteImages fresh delete_keeping_parents
                             (named "nginx") (quiet "" "", []))))
  = [Route_ImageDelete "nginx" false false].
Proof.
  assert (Hform : httputils_ParseForm delete_keeping_parents = None) by by_run.
  assert (Hname : strings_TrimSpace (vars_index (named "nginx") "name") <> "")
    by by_run.
  from (proj1 (deleteImages_flags (P := routes) fresh delete_keeping_parents
                 (named "nginx") (quiet "" "") Hform Hname)).
Defined.

Lemma getImagesSearch_bad_limit_witness :
  getImagesSearch v140 fresh (search_limit "ten") (quiet "" "", [])
  = ((Some "invalid syntax", fresh), (quiet "" "", [])).
Proof.
  assert (Hform : httputils_ParseForm (search_limit "ten") = None) by by_run.
  assert (Hgiven : Values_Get (Form (search_limit "ten")) "limit" <> "")
    by by_run.
  assert (Hatoi : strconv_Atoi (Values_Get (Form (search_limit "ten")) "limit")
                  = inl "invalid syntax") by by_run.
  exact (getImagesSearch_bad_limit (P := routes) v140 fresh
           (search_limit "ten") (quiet "" "") "invalid syntax"
           Hform Hgiven Hatoi).
Defined.



Lemma postImagesTag_created_iff_witness :
  fst (postImagesTag fresh plain (named "nginx") (quiet "" "nginx:latest", []))
  = (None, {| headers := [(":status", "201")]; chunks := [];
              flushed := false; closed := false |})
  /\ fst (postImagesTag fresh plain (named "nginx")
            (cleaning (Some "No such image: nginx") None (quiet "" ""), []))
     = (Some "No such image: nginx", fresh).
Proof.
  assert (Hform : httputils_ParseForm plain = None) by by_run.
  split.
  - assert (Hok : snd (fst (backend_TagImage (vars_index (named "nginx") "name")
                              (Values_Get (Form plain) "repo")
                              (Values_Get (Form plain) "tag")
                              (quiet "" "nginx:latest"))) = None) by by_run.
    from (proj1 (postImagesTag_created_iff (P := routes) fresh plain
                   (named "nginx") (quiet "" "nginx:latest") Hform) Hok).
  - assert (Hfailed : snd (fst (backend_TagImage
                                  (vars_index (named "nginx") "name")
                                  (Values_Get (Form plain) "repo")
                                  (Values_Get (Form plain) "tag")
                                  (cleaning (Some "No such image: nginx") None
                                            (quiet "" ""))))
                      = Some "No such image: nginx") by by_run.
    exact (proj1 (proj2 (postImagesTag_created_iff (P := routes) fresh plain
                           (named "nginx")
                           (cleaning (Some "No such image: nginx") None
                                     (quiet "" "")) Hform)) _ Hfailed).
Defined.

Lemma routes_report_form_error_first_witness :
  deleteImages fresh malformed (named "nginx") (quiet "" "", [])
  = ((Some "invalid URL escape", fresh), (quiet "" "", [])).
Proof.
  assert (Hform : httputils_ParseForm malformed = Some "invalid URL escape")
    by by_run.
  exact (proj1 (proj2 (proj2 (proj2
           (routes_report_form_error_first (P := routes) v140 fresh malformed
              (named "nginx") (quiet "" "") "invalid URL escape" Hform))))).
Defined.

End RouteRuns.

(** ** The metadata headers the backend receives *)

Section ForwardedHeaders.

Context {E : Externals} {P : RouteExternals E}.
Variables (ctx : Context) (w : ResponseWriter) (r : Request ReadCloser).
Variables (vars : gmap string string) (d : Daemon).







End ForwardedHeaders.
